(** * pcan_api_server.py: a shallow embedding and its verification

    The server keeps five module-level globals, talks to the vendor's
    [PCANBasic] object and answers HTTP requests with [jsonify].  The
    embedding follows the source function by function:

    - Python values are modelled as the source has them: [int] as [Z]
      (unbounded), [float] as the kernel's binary64 [float], JSON request
      bodies as finite maps from keys to JSON values, ctypes structures as
      records whose setters wrap to the field width;
    - exceptions are explicit ([result]), and a handler runs in a state and
      exception monad over the globals, the device and the log of device
      calls; an exception that leaves a handler is Flask's 500 answer;
    - a [str] is kept as its UTF-8 bytes, and decoding and printing fail
      where Python's strict codec fails;
    - the vendor module (its constants, its name table and the device
      behind it) is a parameter, the class [PCANBasic]; so is what [int]
      makes of characters outside ASCII, the class [Unicode]. *)

From Stdlib Require Import ZArith Floats Ascii.
From stdpp Require Import gmap strings list.

Set Warnings "-register-all,-inexact-float".

Local Open Scope Z_scope.

(** ** Exceptions *)

(** The exception classes the handlers can meet.  The two Unicode errors
    are subclasses of [ValueError]. *)
Inductive exn :=
  | KeyError
  | ValueError
  | TypeError
  | IndexError
  | OverflowError
  | ZeroDivisionError
  | AttributeError
  | UnicodeDecodeError
  | UnicodeEncodeError.

Inductive result (A : Type) :=
  | Ok (a : A)
  | Raise (e : exn).
Arguments Ok {A} a.
Arguments Raise {A} e.

Definition rbind {A B} (m : result A) (k : A -> result B) : result B :=
  match m with
  | Ok a => k a
  | Raise e => Raise e
  end.

Declare Scope result_scope.
Delimit Scope result_scope with result.
Notation "'let?' x := m 'in' k" := (rbind m (fun x => k))
  (at level 10, x name, m at level 100, k at level 200) : result_scope.

(** ** Python numbers *)

Module PyFloat.

(** An [int] whose magnitude is below 2^53 is a binary64 number. *)
Definition exact_bound : Z := Eval cbv in 2 ^ 53.

Definition of_int_exact (z : Z) : float :=
  if z <? 0 then PrimFloat.opp (PrimFloat.of_uint63 (Uint63.of_Z (- z)))
  else PrimFloat.of_uint63 (Uint63.of_Z z).

(** [float(z)], the conversion an [int / float] division applies to its
    left operand: exact when [z] fits the significand, rounded to nearest
    even otherwise, [OverflowError] past the largest finite float. *)
Definition float_of_int (z : Z) : result float :=
  if Z.abs z <? exact_bound then Ok (of_int_exact z)
  else
    match binary_normalize prec emax z 0 false with
    | S754_infinity _ => Raise OverflowError
    | sf => Ok (SF2Prim sf)
    end.

(** [z / d] for an [int] z and a [float] d. *)
Definition truediv (z : Z) (d : float) : result float :=
  (let? x := float_of_int z in
   if PrimFloat.eqb d 0 then Raise ZeroDivisionError
   else Ok (PrimFloat.div x d))%result.

(** [n / 2^k] rounded to the nearest integer, ties to even ([0 <= n],
    [0 <= k]). *)
Definition round_half_even_shift (n k : Z) : Z :=
  let q := Z.shiftr n k in
  let r := n - Z.shiftl q k in
  match 2 * r ?= Z.shiftl 1 k with
  | Lt => q
  | Gt => q + 1
  | Eq => if Z.even q then q else q + 1
  end.

(** The magnitude [m * 2^e] in hundredths, rounded half to even. *)
Definition hundredths_abs (m : positive) (e : Z) : Z :=
  if 0 <=? e then Z.shiftl (100 * Z.pos m) e
  else round_half_even_shift (100 * Z.pos m) (- e).

(** The decimal reading of a float to two places, as an integer number of
    hundredths: what [round(x, 2)] prints.  [None] for nan and the
    infinities. *)
Definition hundredths (x : float) : option Z :=
  match Prim2SF x with
  | S754_zero _ => Some 0
  | S754_finite s m e =>
      let k := hundredths_abs m e in Some (if s then - k else k)
  | _ => None
  end.

(** [round(x, 2)] on a float.  CPython rounds the exact value of [x] to two
    decimals (ties to even) and returns the float nearest to that decimal,
    with the sign of [x].  From 2^46 on the spacing of floats exceeds one
    hundredth and the result is [x] itself; below, the hundredths fit the
    significand and the nearest float is the correctly rounded quotient by
    100. *)
Definition round2 (x : float) : float :=
  match Prim2SF x with
  | S754_finite s m e =>
      if -7 <? e then x
      else
        let y := PrimFloat.div (of_int_exact (hundredths_abs m e)) 100 in
        if s then PrimFloat.opp y else y
  | _ => x
  end.

End PyFloat.

(** ** The TPMS decoder: [parse_sensor_data] *)

(** The dictionary the decoder returns. *)
Record TpmsReading := {
  sensor_id : Z;
  packet_type : Z;
  pressure : Z;
  temperature : float;
  battery_watts : float
}.

(** [l[i]] on a Python list. *)
Definition py_getitem (l : list Z) (i : nat) : result Z :=
  match l !! i with
  | Some x => Ok x
  | None => Raise IndexError
  end.

(** The body of the [try] block. *)
Definition parse_sensor_data_try (data_bytes : list Z)
  : result (option TpmsReading) :=
  (if (length data_bytes <? 7)%nat then Ok None
   else
     let? sensor_id := py_getitem data_bytes 0 in
     let? packet_type := py_getitem data_bytes 1 in
     let? b2 := py_getitem data_bytes 2 in
     let? b3 := py_getitem data_bytes 3 in
     let pressure := Z.lor (Z.shiftl b2 8) b3 in
     let? b5 := py_getitem data_bytes 5 in
     let? b4 := py_getitem data_bytes 4 in
     let temp_raw := Z.lor (Z.shiftl b5 8) b4 in
     let? temperature := PyFloat.truediv (temp_raw - 8500) 100 in
     let? b6 := py_getitem data_bytes 6 in
     let battery_mw := b6 * 10 + 2000 in
     let? battery_watts := PyFloat.truediv battery_mw 1000 in
     Ok (Some {| sensor_id := sensor_id;
                 packet_type := packet_type;
                 pressure := pressure;
                 temperature := PyFloat.round2 temperature;
                 battery_watts := PyFloat.round2 battery_watts |}))%result.

(** [except Exception] prints and returns [None]. *)
Definition parse_sensor_data (data_bytes : list Z) : option TpmsReading :=
  match parse_sensor_data_try data_bytes with
  | Ok r => r
  | Raise _ => None
  end.

(** A value a [c_ubyte] holds. *)
Definition is_byte (b : Z) : Prop := 0 <= b < 256.

(** ** Exhaustive checks over byte ranges *)

(** [f n && f (n+1) && ... ], [fuel] values from [n] on. *)
Fixpoint all_from (fuel : nat) (n : Z) (f : Z -> bool) : bool :=
  match fuel with
  | O => true
  | S k => f n && all_from k (n + 1) f
  end.

Definition all_bytes (f : Z -> bool) : bool := all_from 256 0 f.

Definition opt_Z_eqb (o : option Z) (z : Z) : bool :=
  match o with
  | Some y => y =? z
  | None => false
  end.

(** What the decoder computes from the raw temperature: the quotient is
    already a two-decimal float, it reads as [raw - 8500] hundredths, and its
    sign is the sign of [raw - 8500]. *)
Definition temperature_check (raw : Z) : bool :=
  match PyFloat.truediv (raw - 8500) 100 with
  | Ok t =>
      PrimFloat.Leibniz.eqb (PyFloat.round2 t) t
      && opt_Z_eqb (PyFloat.hundredths t) (raw - 8500)
      && (if raw <? 8500 then PrimFloat.ltb t 0 else PrimFloat.leb 0 t)
  | Raise _ => false
  end.

Definition battery_check (b6 : Z) : bool :=
  match PyFloat.truediv (b6 * 10 + 2000) 1000 with
  | Ok w =>
      PrimFloat.Leibniz.eqb (PyFloat.round2 w) w
      && opt_Z_eqb (PyFloat.hundredths w) (b6 + 200)
  | Raise _ => false
  end.


(** ** Python strings: [format(n, "0wX")] and [int(s, 16)] *)

Module PyStr.

(** The character of a digit below 16: ['0'..'9'] are 48 to 57, ['A'..'F']
    are 65 to 70. *)
Definition hex_digit (d : Z) : ascii :=
  ascii_of_nat (Z.to_nat (if d <? 10 then 48 + d else 55 + d)).

(** The digits of [n >= 0] in base 16, most significant first, in front of
    [acc]. *)
Fixpoint hex_digits (fuel : nat) (n : Z) (acc : string) : string :=
  match fuel with
  | O => acc
  | S k =>
      let acc' := String (hex_digit (n mod 16)) acc in
      if n / 16 =? 0 then acc' else hex_digits k (n / 16) acc'
  end.

Definition hex_upper (n : Z) : string :=
  hex_digits (S (Z.to_nat (Z.log2 n))) n EmptyString.

Fixpoint zeros (k : nat) : string :=
  match k with
  | O => EmptyString
  | S k' => String "0"%char (zeros k')
  end.

(** [format(z, "0wX")]: upper-case hexadecimal, the sign first, then zeros
    up to a total width of [w]. *)
Definition format_X (w : nat) (z : Z) : string :=
  let digits := hex_upper (Z.abs z) in
  let sign := if z <? 0 then String "-"%char EmptyString else EmptyString in
  let used := (String.length sign + String.length digits)%nat in
  sign +:+ zeros (w - used) +:+ digits.

Definition hex_val (c : ascii) : option Z :=
  let n := Z.of_nat (nat_of_ascii c) in
  if (48 <=? n) && (n <=? 57) then Some (n - 48)
  else if (65 <=? n) && (n <=? 70) then Some (n - 55)
  else if (97 <=? n) && (n <=? 102) then Some (n - 87)
  else None.

(** [Py_ISSPACE]: tab, line feed, vertical tab, form feed, carriage return
    and the space. *)
Definition is_space (c : ascii) : bool :=
  let n := Z.of_nat (nat_of_ascii c) in
  ((9 <=? n) && (n <=? 13)) || (n =? 32).

Fixpoint skip_spaces (s : string) : string :=
  match s with
  | String c s' => if is_space c then skip_spaces s' else s
  | EmptyString => s
  end.

(** The digit loop of [int]: digits and single underscores between them.
    [prev_us] says the previous character was an underscore, [ndigits]
    counts the digits read.  [None] is a syntax error; otherwise the value
    and what follows the digits. *)
Fixpoint scan_digits (s : string) (prev_us : bool) (ndigits : nat) (acc : Z)
  : option (Z * nat * string) :=
  match s with
  | String c s' =>
      if Ascii.eqb c "_"%char then
        if prev_us then None else scan_digits s' true ndigits acc
      else
        match hex_val c with
        | Some d => scan_digits s' false (S ndigits) (16 * acc + d)
        | None => if prev_us then None else Some (acc, ndigits, s)
        end
  | EmptyString => if prev_us then None else Some (acc, ndigits, s)
  end.

(** [int(s, 16)] on an ASCII string: spaces, a sign, ["0x"] or ["0X"] with
    one underscore allowed after it, the digits, spaces.  [None] stands for
    [ValueError].  A string with a character outside ASCII is rejected
    here; CPython first maps Unicode digits and spaces to ASCII, and the
    handler reads the mapped text ([int_text] below). *)
Definition int_base16 (s : string) : option Z :=
  let s1 := skip_spaces s in
  let '(neg, s2) :=
    match s1 with
    | String "+"%char r => (false, r)
    | String "-"%char r => (true, r)
    | _ => (false, s1)
    end in
  let s3 :=
    match s2 with
    | String "0"%char (String "x"%char r)
    | String "0"%char (String "X"%char r) =>
        match r with
        | String "_"%char r' => r'
        | _ => r
        end
    | _ => s2
    end in
  match s3 with
  | String "_"%char _ => None
  | _ =>
      match scan_digits s3 false 0 0 with
      | Some (v, nd, rest) =>
          match nd, skip_spaces rest with
          | S _, EmptyString => Some (if neg then - v else v)
          | _, _ => None
          end
      | None => None
      end
  end.

End PyStr.

(** ** Text and bytes

    A Python [str] is kept as its UTF-8 bytes; a lone surrogate, which a
    JSON escape can put into a [str] and UTF-8 cannot encode, is kept as
    the three bytes the encoding scheme would give it.  A [bytes] object is
    its bytes. *)

(** The character is in ASCII: the top bit is clear. *)
Definition is_ascii_char (c : ascii) : bool :=
  match c with
  | Ascii _ _ _ _ _ _ _ b7 => negb b7
  end.

Fixpoint is_ascii (s : string) : bool :=
  match s with
  | String c s' => is_ascii_char c && is_ascii s'
  | EmptyString => true
  end.

Definition byte_in (lo hi : Z) (c : ascii) : bool :=
  let n := Z.of_nat (nat_of_ascii c) in
  (lo <=? n) && (n <=? hi).

(** A continuation byte. *)
Definition utf8_cont (c : ascii) : bool := byte_in 0x80 0xBF c.

(** The second byte of a three-byte sequence: no overlong form after
    [0xE0], no surrogate after [0xED]. *)
Definition utf8_second3 (c0 c1 : ascii) : bool :=
  if byte_in 0xE0 0xE0 c0 then byte_in 0xA0 0xBF c1
  else if byte_in 0xED 0xED c0 then byte_in 0x80 0x9F c1
  else utf8_cont c1.

(** The second byte of a four-byte sequence: no overlong form after
    [0xF0], nothing above U+10FFFF after [0xF4]. *)
Definition utf8_second4 (c0 c1 : ascii) : bool :=
  if byte_in 0xF0 0xF0 c0 then byte_in 0x90 0xBF c1
  else if byte_in 0xF4 0xF4 c0 then byte_in 0x80 0x8F c1
  else utf8_cont c1.

(** The bytes are well-formed UTF-8: what the strict decoder accepts and
    what the strict encoder can produce. *)
Fixpoint utf8_valid (s : string) : bool :=
  match s with
  | EmptyString => true
  | String c0 s1 =>
      if byte_in 0x00 0x7F c0 then utf8_valid s1
      else if byte_in 0xC2 0xDF c0 then
        match s1 with
        | String c1 s2 => utf8_cont c1 && utf8_valid s2
        | _ => false
        end
      else if byte_in 0xE0 0xEF c0 then
        match s1 with
        | String c1 (String c2 s3) =>
            utf8_second3 c0 c1 && utf8_cont c2 && utf8_valid s3
        | _ => false
        end
      else if byte_in 0xF0 0xF4 c0 then
        match s1 with
        | String c1 (String c2 (String c3 s4)) =>
            utf8_second4 c0 c1 && utf8_cont c2 && utf8_cont c3 && utf8_valid s4
        | _ => false
        end
      else false
  end.

(** The characters of a [str]: each byte that is not a continuation byte
    starts one.  [continues s] says that [s] goes on in the middle of a
    character. *)
Definition continues (s : string) : bool :=
  match s with
  | String c _ => utf8_cont c
  | EmptyString => false
  end.

Fixpoint code_points (s : string) : list string :=
  match s with
  | EmptyString => []
  | String c s' =>
      match code_points s' with
      | p :: ps =>
          if continues s' then String c p :: ps
          else String c EmptyString :: p :: ps
      | [] => [String c EmptyString]
      end
  end.

(** [b.decode('utf-8')] *)
Definition bytes_decode_utf8 (b : string) : result string :=
  if utf8_valid b then Ok b else Raise UnicodeDecodeError.

(** ** JSON values *)

(** A value inside a request body: the atoms, and arrays and objects. *)
Inductive scalar :=
  | SNull
  | SBool (b : bool)
  | SNum (n : Z)
  | SFloat (f : float)
  | SStr (s : string)
  | SArr (l : list scalar)
  | SObj (d : list (string * scalar)).

(** A field of the write request: its value, with an array of values on the
    top level written [JArr]. *)
Inductive jvalue :=
  | JS (v : scalar)
  | JArr (l : list scalar).

(** Python can hash the value: it can be the key of a dictionary lookup.
    Lists and dictionaries cannot. *)
Definition hashable (v : scalar) : bool :=
  match v with
  | SArr _ | SObj _ => false
  | _ => true
  end.

(** [print(f"... {v} ...")] on a standard output in UTF-8: the text of a
    string is written as it is, and a lone surrogate in it cannot be
    encoded; inside an array or an object strings are written by their
    [repr], which escapes it. *)
Definition print_value (v : scalar) : result unit :=
  match v with
  | SStr s => if utf8_valid s then Ok tt else Raise UnicodeEncodeError
  | _ => Ok tt
  end.

(** What [jsonify] is given. *)
Inductive json :=
  | JNull
  | JBool (b : bool)
  | JInt (n : Z)
  | JFloat (f : float)
  | JStr (s : string)
  | JList (l : list json)
  | JDict (d : list (string * json)).

(** Lookup in a response dictionary (its keys are distinct). *)
Fixpoint json_get (k : string) (d : list (string * json)) : option json :=
  match d with
  | [] => None
  | (k', v) :: d' => if String.eqb k k' then Some v else json_get k d'
  end.

(** Python truth values. *)
Definition truthy (v : scalar) : bool :=
  match v with
  | SNull => false
  | SBool b => b
  | SNum n => negb (n =? 0)
  | SFloat f => negb (PrimFloat.eqb f 0)
  | SStr s => negb (String.eqb s EmptyString)
  | SArr l => negb (Nat.eqb (length l) 0)
  | SObj d => negb (Nat.eqb (length d) 0)
  end.

Definition truthy_jvalue (v : jvalue) : bool :=
  match v with
  | JS a => truthy a
  | JArr l => negb (Nat.eqb (length l) 0)
  end.

(** [if data:] on a request body: [None] and the empty object are false. *)
Definition truthy_body {V} (data : option (gmap string V)) : bool :=
  match data with
  | Some d => negb (Nat.eqb (size d) 0)
  | None => false
  end.

(** [d.get(k, dflt)]. *)
Definition dict_get {V} (d : gmap string V) (k : string) (dflt : V) : V :=
  default dflt (d !! k).

(** ** ctypes *)

Definition c_ubyte (z : Z) : Z := z mod 256.
Definition c_uint (z : Z) : Z := z mod 4294967296.

(** Assigning a Python value to a [c_ubyte] slot: integers (and booleans)
    are stored modulo 256, anything else is a [TypeError]. *)
Definition c_ubyte_of_scalar (v : scalar) : result Z :=
  match v with
  | SNum n => Ok (c_ubyte n)
  | SBool b => Ok (Z.b2z b)
  | _ => Raise TypeError
  end.

Module TPCANMsg.
Record t := mk { ID : Z; MSGTYPE : Z; LEN : Z; DATA : list Z }.
Definition DATA_SIZE : nat := 8.
(** [TPCANMsg()]: every field zero. *)
Definition new : t := mk 0 0 0 (replicate DATA_SIZE 0).
End TPCANMsg.

Module TPCANMsgFD.
Record t := mk { ID : Z; MSGTYPE : Z; DLC : Z; DATA : list Z }.
Definition DATA_SIZE : nat := 64.
Definition new : t := mk 0 0 0 (replicate DATA_SIZE 0).
End TPCANMsgFD.

Module TPCANTimestamp.
Record t := mk { millis : Z; millis_overflow : Z; micros : Z }.
End TPCANTimestamp.

(** The message object a handler holds: one of the two structures. *)
Inductive can_msg :=
  | Msg (m : TPCANMsg.t)
  | MsgFD (m : TPCANMsgFD.t).

(** A [TPCANTimestamp] structure or a [TPCANTimestampFD] ([c_ulonglong]). *)
Inductive timestamp :=
  | Ts (t : TPCANTimestamp.t)
  | TsFD (value : Z).

Definition msg_ID (m : can_msg) : Z :=
  match m with
  | Msg c => TPCANMsg.ID c
  | MsgFD f => TPCANMsgFD.ID f
  end.

Definition msg_MSGTYPE (m : can_msg) : Z :=
  match m with
  | Msg c => TPCANMsg.MSGTYPE c
  | MsgFD f => TPCANMsgFD.MSGTYPE f
  end.

Definition msg_DATA (m : can_msg) : list Z :=
  match m with
  | Msg c => TPCANMsg.DATA c
  | MsgFD f => TPCANMsgFD.DATA f
  end.

(** [msg.LEN] exists on a [TPCANMsg] only, [msg.DLC] on a [TPCANMsgFD]. *)
Definition msg_LEN (m : can_msg) : result Z :=
  match m with
  | Msg c => Ok (TPCANMsg.LEN c)
  | MsgFD _ => Raise AttributeError
  end.

Definition msg_DLC (m : can_msg) : result Z :=
  match m with
  | Msg _ => Raise AttributeError
  | MsgFD f => Ok (TPCANMsgFD.DLC f)
  end.

(** The structure a [PCANBasic] method expects. *)
Definition as_Msg (m : can_msg) : result TPCANMsg.t :=
  match m with
  | Msg c => Ok c
  | MsgFD _ => Raise TypeError
  end.

Definition as_MsgFD (m : can_msg) : result TPCANMsgFD.t :=
  match m with
  | Msg _ => Raise TypeError
  | MsgFD f => Ok f
  end.

(** [msg.ID = v] *)
Definition set_ID (m : can_msg) (v : Z) : can_msg :=
  match m with
  | Msg c => Msg (TPCANMsg.mk (c_uint v) (TPCANMsg.MSGTYPE c)
                    (TPCANMsg.LEN c) (TPCANMsg.DATA c))
  | MsgFD f => MsgFD (TPCANMsgFD.mk (c_uint v) (TPCANMsgFD.MSGTYPE f)
                        (TPCANMsgFD.DLC f) (TPCANMsgFD.DATA f))
  end.

(** [msg.MSGTYPE = v] *)
Definition set_MSGTYPE (m : can_msg) (v : Z) : can_msg :=
  match m with
  | Msg c => Msg (TPCANMsg.mk (TPCANMsg.ID c) (c_ubyte v)
                    (TPCANMsg.LEN c) (TPCANMsg.DATA c))
  | MsgFD f => MsgFD (TPCANMsgFD.mk (TPCANMsgFD.ID f) (c_ubyte v)
                        (TPCANMsgFD.DLC f) (TPCANMsgFD.DATA f))
  end.

Definition with_DATA (m : can_msg) (d : list Z) : can_msg :=
  match m with
  | Msg c => Msg (TPCANMsg.mk (TPCANMsg.ID c) (TPCANMsg.MSGTYPE c)
                    (TPCANMsg.LEN c) d)
  | MsgFD f => MsgFD (TPCANMsgFD.mk (TPCANMsgFD.ID f) (TPCANMsgFD.MSGTYPE f)
                        (TPCANMsgFD.DLC f) d)
  end.

(** [msg.DATA[i] = byte_val]: the index is checked first ([IndexError]),
    then the value is converted. *)
Definition set_DATA (m : can_msg) (i : nat) (byte_val : scalar)
  : result can_msg :=
  (if (i <? length (msg_DATA m))%nat then
     let? b := c_ubyte_of_scalar byte_val in
     Ok (with_DATA m (<[i := b]> (msg_DATA m)))
   else Raise IndexError)%result.

(** [msg.DATA[i]] *)
Definition get_DATA (m : can_msg) (i : nat) : result Z :=
  py_getitem (msg_DATA m) i.

(** ** The module namespace *)

(** What a name of the module can be bound to, as far as [init_can] can
    tell: a ctypes integer object (it has [.value]), an [int] or [bool], a
    [str] or [float], or any other object. *)
Inductive pyobj :=
  | CInt (value : Z)
  | PyInt (n : Z)
  | PyStrOrFloat
  | PyOther.

(** [obj.value if hasattr(obj, 'value') else obj] *)
Definition value_or_self (o : pyobj) : pyobj :=
  match o with
  | CInt v => PyInt v
  | _ => o
  end.

(** [format(o, "0wX")]: defined on integers only.  A [str] and a [float]
    have a format of their own that does not know [X] ([ValueError]); any
    other object takes no format at all ([TypeError]). *)
Definition format_X_obj (w : nat) (o : pyobj) : result string :=
  match o with
  | PyInt n => Ok (PyStr.format_X w n)
  | PyStrOrFloat => Raise ValueError
  | _ => Raise TypeError
  end.

(** An argument of a [PCANBasic] method, as ctypes passes it to the
    library: the value of a ctypes integer or of an [int].  The handlers
    never pass anything else. *)
Definition c_arg (o : pyobj) : result Z :=
  match o with
  | CInt v => Ok v
  | PyInt n => Ok n
  | _ => Raise TypeError
  end.

Definition obj_of_scalar (v : scalar) : pyobj :=
  match v with
  | SBool b => PyInt (Z.b2z b)
  | SNum n => PyInt n
  | SStr _ | SFloat _ => PyStrOrFloat
  | _ => PyOther
  end.

(** ** The vendor module *)

(** [PCANBasic.py] is not part of the sources.  Its constants, the names it
    exports and the device behind the [PCANBasic] object are parameters: a
    method takes the device state and returns its results with the next
    state.  Status codes are [int]s, handles, baud rates and message types
    are ctypes integers, given here by their [.value]. *)
Class PCANBasic := {
  PCAN_ERROR_OK : Z;
  PCAN_ERROR_QRCVEMPTY : Z;
  PCAN_ERROR_QRCVEMPTY_not_OK : PCAN_ERROR_QRCVEMPTY <> PCAN_ERROR_OK;
  PCAN_USBBUS1 : Z;
  PCAN_BAUD_500K : Z;
  PCAN_MESSAGE_STANDARD : Z;
  PCAN_MESSAGE_EXTENDED : Z;
  PCAN_MESSAGE_RTR : Z;
  (** every other name [from PCANBasic import *] and the imports bind *)
  imported_names : string -> option pyobj;
  device : Type;
  pcan_Initialize : Z -> Z -> device -> Z * device;
  pcan_Uninitialize : Z -> device -> Z * device;
  pcan_GetStatus : Z -> device -> Z * device;
  pcan_GetErrorText : Z -> device -> (Z * string) * device;
  pcan_Read : Z -> device -> (Z * TPCANMsg.t * TPCANTimestamp.t) * device;
  pcan_ReadFD : Z -> device -> (Z * TPCANMsgFD.t * Z) * device;
  pcan_Write : Z -> TPCANMsg.t -> device -> Z * device;
  pcan_WriteFD : Z -> TPCANMsgFD.t -> device -> Z * device
}.

(** ** The interpreter's Unicode tables *)

(** Before [int] reads a string with characters outside ASCII it maps
    every Unicode space to a blank and every Unicode decimal digit to its
    ASCII digit.  The tables are the interpreter's; the map is a
    parameter, used on such strings only. *)
Class Unicode := {
  decimal_and_space_to_ascii : string -> string
}.

(** A call a handler makes on the [pcan] object. *)
Inductive call :=
  | CInitialize (channel btr0btr1 : Z)
  | CUninitialize (channel : Z)
  | CGetStatus (channel : Z)
  | CGetErrorText (status : Z)
  | CRead (channel : Z)
  | CReadFD (channel : Z)
  | CWrite (channel : Z) (m : TPCANMsg.t)
  | CWriteFD (channel : Z) (m : TPCANMsgFD.t).

(** ** Responses *)

Inductive response :=
  (** [jsonify(body), code] *)
  | Json (code : Z) (body : list (string * json))
  (** an exception left the handler: Flask's 500 page *)
  | ServerError (e : exn).



(** ** The server state *)

(** The module-level globals.  [IS_FD] holds whatever the last request body
    gave for ["is_fd"]. *)
Record Globals := mkGlobals {
  PCAN_HANDLE : pyobj;
  BAUDRATE : pyobj;
  IS_FD : scalar;
  pcan_initialized : bool;
  is_tpms_collection_active : bool
}.

Definition set_PCAN_HANDLE (o : pyobj) (g : Globals) : Globals :=
  mkGlobals o (BAUDRATE g) (IS_FD g) (pcan_initialized g)
            (is_tpms_collection_active g).

Definition set_IS_FD (v : scalar) (g : Globals) : Globals :=
  mkGlobals (PCAN_HANDLE g) (BAUDRATE g) v (pcan_initialized g)
            (is_tpms_collection_active g).

Definition set_pcan_initialized (b : bool) (g : Globals) : Globals :=
  mkGlobals (PCAN_HANDLE g) (BAUDRATE g) (IS_FD g) b
            (is_tpms_collection_active g).

Definition set_is_tpms_collection_active (b : bool) (g : Globals) : Globals :=
  mkGlobals (PCAN_HANDLE g) (BAUDRATE g) (IS_FD g) (pcan_initialized g) b.

Declare Scope handler_scope.

Section Server.

Context {P : PCANBasic} {U : Unicode}.

(** Python's [str(e)] for a caught exception. *)
Variable exc_str : exn -> string.

(** The globals as the module sets them when it is loaded. *)
Definition initial_globals : Globals :=
  {| PCAN_HANDLE := CInt PCAN_USBBUS1;
     BAUDRATE := CInt PCAN_BAUD_500K;
     IS_FD := SBool false;
     pcan_initialized := false;
     is_tpms_collection_active := false |}.

(** The globals, the device, and the calls made on it so far. *)
Record World := mkWorld {
  globals : Globals;
  dev : device;
  calls : list call
}.

(** A handler: it may change the world and return or raise. *)
Definition M (A : Type) : Type := World -> result A * World.

Definition ret {A} (a : A) : M A := fun w => (Ok a, w).

Definition raise {A} (e : exn) : M A := fun w => (Raise e, w).

Definition bind {A B} (m : M A) (k : A -> M B) : M B :=
  fun w =>
    match m w with
    | (Ok a, w') => k a w'
    | (Raise e, w') => (Raise e, w')
    end.

Definition lift {A} (r : result A) : M A := fun w => (r, w).

Definition get_globals : M Globals := fun w => (Ok (globals w), w).

Definition modify_globals (f : Globals -> Globals) : M unit :=
  fun w => (Ok tt, mkWorld (f (globals w)) (dev w) (calls w)).

(** A method call on [pcan]: the device answers and moves on, the call is
    logged. *)
Definition pcan_call {A} (c : call) (method : device -> A * device) : M A :=
  fun w =>
    let '(a, d') := method (dev w) in
    (Ok a, mkWorld (globals w) d' (calls w ++ [c])).

(** [try: m except (the exceptions caught) as e: handler e] *)
Definition try_except {A} (m : M A) (caught : exn -> bool)
  (handler : exn -> M A) : M A :=
  fun w =>
    match m w with
    | (Raise e, w') => if caught e then handler e w' else (Raise e, w')
    | ok => ok
    end.

(** A route: what leaves the handler as an exception is answered by
    Flask with status 500. *)
Definition route (m : M response) (w : World) : response * World :=
  match m w with
  | (Ok r, w') => (r, w')
  | (Raise e, w') => (ServerError e, w')
  end.

Delimit Scope handler_scope with handler.
Notation "'let!' x := m 'in' k" := (bind m (fun x => k))
  (at level 10, x name, m at level 100, k at level 200) : handler_scope.
Notation "m ';!' k" := (bind m (fun _ => k))
  (at level 100, k at level 200, right associativity) : handler_scope.
Local Open Scope handler_scope.

(** [globals().get(key, dflt)]: the five globals, the names the module
    itself uses from the vendor module, then every other name. *)
Definition module_name (g : Globals) (name : string) : option pyobj :=
  if String.eqb name "PCAN_HANDLE" then Some (PCAN_HANDLE g)
  else if String.eqb name "BAUDRATE" then Some (BAUDRATE g)
  else if String.eqb name "IS_FD" then Some (obj_of_scalar (IS_FD g))
  else if String.eqb name "pcan_initialized"
    then Some (PyInt (Z.b2z (pcan_initialized g)))
  else if String.eqb name "is_tpms_collection_active"
    then Some (PyInt (Z.b2z (is_tpms_collection_active g)))
  else if String.eqb name "PCAN_USBBUS1" then Some (CInt PCAN_USBBUS1)
  else if String.eqb name "PCAN_BAUD_500K" then Some (CInt PCAN_BAUD_500K)
  else if String.eqb name "PCAN_ERROR_OK" then Some (PyInt PCAN_ERROR_OK)
  else if String.eqb name "PCAN_ERROR_QRCVEMPTY"
    then Some (PyInt PCAN_ERROR_QRCVEMPTY)
  else if String.eqb name "PCAN_MESSAGE_STANDARD"
    then Some (CInt PCAN_MESSAGE_STANDARD)
  else if String.eqb name "PCAN_MESSAGE_EXTENDED"
    then Some (CInt PCAN_MESSAGE_EXTENDED)
  else if String.eqb name "PCAN_MESSAGE_RTR"
    then Some (CInt PCAN_MESSAGE_RTR)
  else imported_names name.

(** The key is hashed first: a list or a dictionary is a [TypeError].  A
    key that is not a string names nothing. *)
Definition globals_get (g : Globals) (key : scalar) (dflt : pyobj)
  : result pyobj :=
  match key with
  | SStr name => Ok (default dflt (module_name g name))
  | SArr _ | SObj _ => Raise TypeError
  | _ => Ok dflt
  end.

(** *** [get_error_text] *)

Definition get_error_text (status : Z) : M string :=
  let! error_text_tuple :=
    pcan_call (CGetErrorText status) (pcan_GetErrorText status) in
  if fst error_text_tuple =? PCAN_ERROR_OK then
    lift (bytes_decode_utf8 (snd error_text_tuple))
  else
    ret ("Unknown error code: " +:+ PyStr.format_X 5 status +:+ "h").

(** *** [release_hardware_on_exit] *)

Definition release_hardware_on_exit : M unit :=
  let! g := get_globals in
  if pcan_initialized g then
    let! h := lift (c_arg (PCAN_HANDLE g)) in
    let! _ := pcan_call (CUninitialize h) (pcan_Uninitialize h) in
    modify_globals (set_pcan_initialized false)
  else ret tt.

(** *** The TPMS collection routes *)

Definition get_tpms_status : M response :=
  let! g := get_globals in
  ret (Json 200 [("success", JBool true);
                 ("is_collecting", JBool (is_tpms_collection_active g))]).

(** [request_json] is the parsed body; [None] when there is none, and then
    [.get] fails. *)
Definition start_tpms_collection (request_json : option (gmap string scalar))
  : M response :=
  modify_globals (set_is_tpms_collection_active true) ;!
  let! tire_count :=
    match request_json with
    | Some d => ret (dict_get d "tire_count" (SNum 0))
    | None => raise AttributeError
    end in
  (* tire_count is printed, nothing else *)
  let! _ := lift (print_value tire_count) in
  let! g := get_globals in
  ret (Json 200 [("success", JBool true);
                 ("message", JStr "TPMS collection started.");
                 ("is_collecting", JBool (is_tpms_collection_active g))]).

Definition stop_tpms_collection : M response :=
  modify_globals (set_is_tpms_collection_active false) ;!
  let! g := get_globals in
  ret (Json 200 [("success", JBool true);
                 ("message", JStr "TPMS collection stopped.");
                 ("is_collecting", JBool (is_tpms_collection_active g))]).

(** *** [init_can] *)

(** [data] is the parsed body: a JSON object, or [None].  The first debug
    print writes the [repr] of the body, which escapes what standard output
    could not encode; the second formats the two values, and that can
    raise. *)
Definition init_can (data : option (gmap string scalar)) : M response :=
  let! g := get_globals in
  let! objs :=
    match data with
    | Some d =>
        if truthy_body data then
          let! pcan_handle_obj :=
            lift (globals_get g (dict_get d "channel" (SStr "PCAN_USBBUS1"))
                              (CInt PCAN_USBBUS1)) in
          let! baudrate_obj :=
            lift (globals_get g (dict_get d "baudrate" (SStr "PCAN_BAUD_500K"))
                              (CInt PCAN_BAUD_500K)) in
          modify_globals (set_IS_FD (dict_get d "is_fd" (SBool false))) ;!
          ret (pcan_handle_obj, baudrate_obj)
        else ret (PCAN_HANDLE g, BAUDRATE g)
    | None => ret (PCAN_HANDLE g, BAUDRATE g)
    end in
  let pcan_handle_obj := fst objs in
  let baudrate_obj := snd objs in
  let! g := get_globals in
  if truthy (IS_FD g) then
    ret (Json 501
           [("success", JBool false);
            ("error", JStr "CAN-FD Initialization is not fully implemented in this example.")])
  else
    let handle_value := value_or_self pcan_handle_obj in
    let baudrate_value := value_or_self baudrate_obj in
    (* the debug print formats both values *)
    let! handle_hex := lift (format_X_obj 2 handle_value) in
    let! _ := lift (format_X_obj 4 baudrate_value) in
    let! h := lift (c_arg handle_value) in
    let! b := lift (c_arg baudrate_value) in
    let! status := pcan_call (CInitialize h b) (pcan_Initialize h b) in
    if status =? PCAN_ERROR_OK then
      modify_globals (set_PCAN_HANDLE pcan_handle_obj) ;!
      modify_globals (set_pcan_initialized true) ;!
      ret (Json 200
             [("success", JBool true);
              ("message",
               JStr ("Channel " +:+ handle_hex +:+
                     "h initialized successfully at the specified baudrate."))])
    else
      modify_globals (set_pcan_initialized false) ;!
      let! text := get_error_text status in
      ret (Json 500 [("success", JBool false); ("error", JStr text)]).

(** *** [release_can] *)

Definition release_can : M response :=
  let! g := get_globals in
  let! h := lift (c_arg (PCAN_HANDLE g)) in
  let! status := pcan_call (CUninitialize h) (pcan_Uninitialize h) in
  if status =? PCAN_ERROR_OK then
    modify_globals (set_pcan_initialized false) ;!
    ret (Json 200 [("success", JBool true);
                   ("message", JStr "Channel released.")])
  else
    let! text := get_error_text status in
    ret (Json 500 [("success", JBool false); ("error", JStr text)]).

(** *** [get_status] *)

Definition get_status : M response :=
  let! g := get_globals in
  let! h := lift (c_arg (PCAN_HANDLE g)) in
  let! status := pcan_call (CGetStatus h) (pcan_GetStatus h) in
  let status_code_text := PyStr.format_X 5 status +:+ "h" in
  let! text := get_error_text status in
  ret (Json 200 [("status_code", JStr status_code_text);
                 ("status_text", JStr text)]).

(** *** [read_message] *)

(** [[can_msg.DATA[i] for i in range(data_len)]] *)
Fixpoint read_items (m : can_msg) (indices : list nat) : result (list Z) :=
  match indices with
  | [] => Ok []
  | i :: rest =>
      (let? x := get_DATA m i in
       let? xs := read_items m rest in
       Ok (x :: xs))%result
  end.

Definition read_data (m : can_msg) (data_len : Z) : result (list Z) :=
  read_items m (seq 0 (Z.to_nat data_len)).

Definition json_of_reading (r : TpmsReading) : json :=
  JDict [("sensor_id", JInt (sensor_id r));
         ("packet_type", JInt (packet_type r));
         ("pressure", JInt (pressure r));
         ("temperature", JFloat (temperature r));
         ("battery_watts", JFloat (battery_watts r))].

Definition json_of_parsed (p : option TpmsReading) : json :=
  match p with
  | Some r => json_of_reading r
  | None => JNull
  end.

(** The timestamp in microseconds, from either structure. *)
Definition ts_value (ts : timestamp) : Z :=
  match ts with
  | Ts t =>
      TPCANTimestamp.micros t + 1000 * TPCANTimestamp.millis t
      + 0x100000000 * 1000 * TPCANTimestamp.millis_overflow t
  | TsFD value => value
  end.

Definition read_message : M response :=
  let! g := get_globals in
  let! h := lift (c_arg (PCAN_HANDLE g)) in
  let! result_tuple :=
    if truthy (IS_FD g) then
      let! r := pcan_call (CReadFD h) (pcan_ReadFD h) in
      ret (r.1.1, MsgFD r.1.2, TsFD r.2)
    else
      let! r := pcan_call (CRead h) (pcan_Read h) in
      ret (r.1.1, Msg r.1.2, Ts r.2) in
  let status := result_tuple.1.1 in
  if status =? PCAN_ERROR_QRCVEMPTY then
    ret (Json 200 [("success", JBool true);
                   ("message", JStr "Receive queue is empty.")])
  else if negb (status =? PCAN_ERROR_OK) then
    let! text := get_error_text status in
    ret (Json 500 [("success", JBool false); ("error", JStr text)])
  else
    let can_msg := result_tuple.1.2 in
    let timestamp := result_tuple.2 in
    let! data_len :=
      lift (if negb (truthy (IS_FD g)) then msg_LEN can_msg
            else msg_DLC can_msg) in
    let! data_bytes := lift (read_data can_msg data_len) in
    let parsed_data :=
      if 7 <=? data_len then parse_sensor_data data_bytes else None in
    let msg_data :=
      [("id", JStr (PyStr.format_X 0 (msg_ID can_msg)));
       ("msg_type", JInt (msg_MSGTYPE can_msg));
       ("len", JInt data_len);
       ("data", JList (JInt <$> data_bytes));
       ("parsed", json_of_parsed parsed_data)] in
    ret (Json 200 [("success", JBool true);
                   ("message", JDict msg_data);
                   ("timestamp_us", JInt (ts_value timestamp))]).

(** *** [write_message] *)

(** [len(x)]: arrays, objects and strings have a length. *)
Definition py_len (x : jvalue) : result Z :=
  match x with
  | JArr l | JS (SArr l) => Ok (Z.of_nat (length l))
  | JS (SObj d) => Ok (Z.of_nat (length d))
  | JS (SStr s) => Ok (Z.of_nat (length (code_points s)))
  | JS _ => Raise TypeError
  end.

(** The items [enumerate(x)] yields: the elements of an array, the keys of
    an object, the characters of a string. *)
Definition py_items (x : jvalue) : list scalar :=
  match x with
  | JArr l | JS (SArr l) => l
  | JS (SObj d) => (fun kv => SStr (fst kv)) <$> d
  | JS (SStr s) => SStr <$> code_points s
  | JS _ => []
  end.

(** The text [int] reads. *)
Definition int_text (s : string) : string :=
  if is_ascii s then s else decimal_and_space_to_ascii s.

(** [int(x, 16)] *)
Definition py_int16 (x : jvalue) : result Z :=
  match x with
  | JS (SStr s) =>
      match PyStr.int_base16 (int_text s) with
      | Some n => Ok n
      | None => Raise ValueError
      end
  | _ => Raise TypeError
  end.

(** [for i, byte_val in enumerate(items): msg.DATA[i] = byte_val], from
    index [i] on. *)
Fixpoint fill_data (m : can_msg) (i : nat) (items : list scalar)
  : result can_msg :=
  match items with
  | [] => Ok m
  | byte_val :: rest =>
      (let? m' := set_DATA m i byte_val in fill_data m' (S i) rest)%result
  end.

(** [except (KeyError, ValueError, TypeError)], with the subclasses of
    [ValueError]. *)
Definition caught_by_write (e : exn) : bool :=
  match e with
  | KeyError | ValueError | TypeError
  | UnicodeDecodeError | UnicodeEncodeError => true
  | _ => false
  end.

Definition write_message (data : option (gmap string jvalue)) : M response :=
  match data with
  | Some d =>
      if truthy_body data then
        try_except
          (let! g := get_globals in
           let payload := dict_get d "data" (JArr []) in
           let! n := lift (py_len payload) in
           let msg :=
             if truthy (IS_FD g) then
               MsgFD (TPCANMsgFD.mk 0 0 (c_ubyte n) (TPCANMsgFD.DATA TPCANMsgFD.new))
             else
               Msg (TPCANMsg.mk 0 0 (c_ubyte n) (TPCANMsg.DATA TPCANMsg.new)) in
           let! id :=
             lift (match d !! "id" with
                   | Some x => py_int16 x
                   | None => Raise KeyError
                   end) in
           let msg := set_ID msg id in
           let msg := set_MSGTYPE msg PCAN_MESSAGE_STANDARD in
           let msg :=
             if truthy_jvalue (dict_get d "extended" (JS (SBool false))) then
               set_MSGTYPE msg (Z.lor (msg_MSGTYPE msg) PCAN_MESSAGE_EXTENDED)
             else msg in
           let msg :=
             if truthy_jvalue (dict_get d "rtr" (JS (SBool false))) then
               set_MSGTYPE msg (Z.lor (msg_MSGTYPE msg) PCAN_MESSAGE_RTR)
             else msg in
           let! msg := lift (fill_data msg 0 (py_items payload)) in
           let! h := lift (c_arg (PCAN_HANDLE g)) in
           let! status :=
             if truthy (IS_FD g) then
               let! f := lift (as_MsgFD msg) in
               pcan_call (CWriteFD h f) (pcan_WriteFD h f)
             else
               let! c := lift (as_Msg msg) in
               pcan_call (CWrite h c) (pcan_Write h c) in
           if status =? PCAN_ERROR_OK then
             ret (Json 200 [("success", JBool true);
                            ("message", JStr "Message sent successfully.")])
           else
             let! text := get_error_text status in
             ret (Json 500 [("success", JBool false); ("error", JStr text)]))
          caught_by_write
          (fun e =>
             ret (Json 400
                    [("success", JBool false);
                     ("error", JStr ("Invalid request format: " +:+ exc_str e))]))
      else
        ret (Json 400 [("success", JBool false);
                       ("error", JStr "Invalid JSON body.")])
  | None =>
      ret (Json 400 [("success", JBool false);
                     ("error", JStr "Invalid JSON body.")])
  end.

End Server.

Delimit Scope handler_scope with handler.
Notation "'let!' x := m 'in' k" := (bind m (fun x => k))
  (at level 10, x name, m at level 100, k at level 200) : handler_scope.
Notation "m ';!' k" := (bind m (fun _ => k))
  (at level 100, k at level 200, right associativity) : handler_scope.

(** ** Notions used in the statements *)

Section Statements.

Context {P : PCANBasic} {U : Unicode}.

(** The same world with another value of [pcan_initialized]. *)
Definition with_initialized (b : bool) (w : World) : World :=
  mkWorld (set_pcan_initialized b (globals w)) (dev w) (calls w).

(** What a lookup gave, and no integer when it raised. *)
Definition found (r : result pyobj) : pyobj :=
  match r with
  | Ok o => o
  | Raise _ => PyOther
  end.

(** The objects [init_can] resolves the request to. *)
Definition resolved_handle (g : Globals) (data : option (gmap string scalar))
  : pyobj :=
  match data with
  | Some d =>
      if truthy_body data then
        found (globals_get g (dict_get d "channel" (SStr "PCAN_USBBUS1"))
                           (CInt PCAN_USBBUS1))
      else PCAN_HANDLE g
  | None => PCAN_HANDLE g
  end.

Definition resolved_baudrate (g : Globals)
  (data : option (gmap string scalar)) : pyobj :=
  match data with
  | Some d =>
      if truthy_body data then
        found (globals_get g (dict_get d "baudrate" (SStr "PCAN_BAUD_500K"))
                           (CInt PCAN_BAUD_500K))
      else BAUDRATE g
  | None => BAUDRATE g
  end.

(** The channel and the baud rate of the request, when given, are values
    Python can hash: the two lookups of [init_can] do not raise. *)
Definition hashable_names (d : gmap string scalar) : Prop :=
  hashable (dict_get d "channel" (SStr "PCAN_USBBUS1")) = true /\
  hashable (dict_get d "baudrate" (SStr "PCAN_BAUD_500K")) = true.

(** [IS_FD] once [init_can] has read the request. *)
Definition resolved_is_fd (g : Globals) (data : option (gmap string scalar))
  : scalar :=
  match data with
  | Some d =>
      if truthy_body data then dict_get d "is_fd" (SBool false) else IS_FD g
  | None => IS_FD g
  end.

(** A computation that does not look at [pcan_initialized]: run with
    another value of the flag it gives the same result, the same device
    state and the same calls, and leaves the flag as it found it. *)
Definition ignores_initialized {A} (m : M A) : Prop :=
  forall w b,
    m (with_initialized b w) = ((m w).1, with_initialized b (m w).2).

(** What [get_error_text] returns or raises for a status when the device
    is in state [d]. *)
Definition error_text (status : Z) (d : device) : result string :=
  let t := (pcan_GetErrorText status d).1 in
  if t.1 =? PCAN_ERROR_OK then bytes_decode_utf8 t.2
  else Ok ("Unknown error code: " +:+ PyStr.format_X 5 status +:+ "h").

(** The answer of a handler that reports a status the device gave: 500
    with the text, or the exception of the decoding, which leaves the
    handler. *)
Definition error_answer (status : Z) (d : device) : response :=
  match error_text status d with
  | Ok text => Json 500 [("success", JBool false); ("error", JStr text)]
  | Raise e => ServerError e
  end.

(** The world after a method call that left the device in state [d']. *)
Definition after_call (w : World) (c : call) (d' : device) : World :=
  mkWorld (globals w) d' (calls w ++ [c]).

(** The world with other globals. *)
Definition with_globals (g : Globals) (w : World) : World :=
  mkWorld g (dev w) (calls w).

(** The first read call a handler makes on the device. *)
Definition read_call (g : Globals) (h : Z) : call :=
  if truthy (IS_FD g) then CReadFD h else CRead h.

End Statements.

(** ** A scripted device

    An instance of the vendor module for running the handlers: the
    constants have the values of the vendor's header, and the device
    answers every method with the status its state prescribes. *)

Record script := mkScript {
  on_Initialize : Z;
  on_Uninitialize : Z;
  on_GetStatus : Z;
  on_GetErrorText : Z * string;
  on_Read : Z * TPCANMsg.t * TPCANTimestamp.t;
  on_ReadFD : Z * TPCANMsgFD.t * Z;
  on_Write : Z;
  on_WriteFD : Z
}.

Definition scripted_names (name : string) : option pyobj :=
  if String.eqb name "PCAN_USBBUS2" then Some (CInt 0x52)
  else if String.eqb name "PCAN_BAUD_250K" then Some (CInt 0x011C)
  else if String.eqb name "pcan" then Some PyOther
  else if String.eqb name "__name__" then Some PyStrOrFloat
  else None.

Definition scripted : PCANBasic := {|
  PCAN_ERROR_OK := 0;
  PCAN_ERROR_QRCVEMPTY := 0x20;
  PCAN_ERROR_QRCVEMPTY_not_OK := ltac:(discriminate);
  PCAN_USBBUS1 := 0x51;
  PCAN_BAUD_500K := 0x1C;
  PCAN_MESSAGE_STANDARD := 0;
  PCAN_MESSAGE_EXTENDED := 2;
  PCAN_MESSAGE_RTR := 1;
  imported_names := scripted_names;
  device := script;
  pcan_Initialize := fun _ _ d => (on_Initialize d, d);
  pcan_Uninitialize := fun _ d => (on_Uninitialize d, d);
  pcan_GetStatus := fun _ d => (on_GetStatus d, d);
  pcan_GetErrorText := fun _ d => (on_GetErrorText d, d);
  pcan_Read := fun _ d => (on_Read d, d);
  pcan_ReadFD := fun _ d => (on_ReadFD d, d);
  pcan_Write := fun _ _ d => (on_Write d, d);
  pcan_WriteFD := fun _ _ d => (on_WriteFD d, d)
|}.

(** A frame carrying a TPMS packet, and a device with it at the head of the
    receive queue; everything else succeeds. *)
Definition tpms_frame : TPCANMsg.t :=
  TPCANMsg.mk 0x1FF 0 8 [3; 1; 1; 0; 0x34; 0x21; 255; 0].

Definition frame_stamp : TPCANTimestamp.t := TPCANTimestamp.mk 5 1 7.

Definition fd_frame : TPCANMsgFD.t :=
  TPCANMsgFD.mk 0x1FF 4 8 ([3; 1; 1; 0; 0x34; 0x21; 255; 0] ++ replicate 56 0).

Definition ready_device : script := {|
  on_Initialize := 0;
  on_Uninitialize := 0;
  on_GetStatus := 0;
  on_GetErrorText := (0, "No Error");
  on_Read := (0, tpms_frame, frame_stamp);
  on_ReadFD := (0, fd_frame, 123456789);
  on_Write := 0;
  on_WriteFD := 0
|}.

(** A device with nothing attached: the queue is empty and the other
    methods fail with "channel not initialized" (0x4000000). *)
Definition idle_device : script := {|
  on_Initialize := 0x4000000;
  on_Uninitialize := 0x4000000;
  on_GetStatus := 0x4000000;
  on_GetErrorText := (0, "Channel is not initialized");
  on_Read := (0x20, TPCANMsg.new, TPCANTimestamp.mk 0 0 0);
  on_ReadFD := (0x20, TPCANMsgFD.new, 0);
  on_Write := 0;
  on_WriteFD := 0
|}.

(** An interpreter for requests in ASCII, which [int] reads as they
    are. *)
#[global] Instance ascii_requests : Unicode := {|
  decimal_and_space_to_ascii := fun s => s
|}.

(** A device that refuses everything and explains itself in bytes that are
    not UTF-8: the text is the single byte [0xFC], the letter u with
    diaeresis in Latin-1. *)
Definition garbled_device : script := {|
  on_Initialize := 0x4000000;
  on_Uninitialize := 0x4000000;
  on_GetStatus := 0x4000000;
  on_GetErrorText := (0, String (ascii_of_nat 0xFC) "");
  on_Read := (0x4000000, TPCANMsg.new, TPCANTimestamp.mk 0 0 0);
  on_ReadFD := (0x4000000, TPCANMsgFD.new, 0);
  on_Write := 0x4000000;
  on_WriteFD := 0x4000000
|}.

(** The world when the module has just been loaded. *)
Definition start_world (d : script) : World (P := scripted) :=
  mkWorld (P := scripted) (initial_globals (P := scripted)) d [].

Definition no_exc_str (e : exn) : string := "".

(** The write request of the handler's docstring, and one with nine data
    bytes. *)
Definition write_request : gmap string jvalue :=
  {[ "id" := JS (SStr "100");
     "data" := JArr (SNum <$> [1; 2; 3; 4; 5; 6; 7; 8]);
     "extended" := JS (SBool false);
     "rtr" := JS (SBool false) ]}.

Definition long_write_request : gmap string jvalue :=
  {[ "id" := JS (SStr "1FF");
     "data" := JArr (SNum <$> [0; 1; 2; 3; 4; 5; 6; 7; 8]);
     "extended" := JS (SBool false) ]}.

(** ** The routing table *)

(** The requests of the JSON routes.  The two static routes (["/"] and
    ["/tpms"]) touch neither the globals nor the device and are left
    out. *)
Inductive request :=
  | GetTpmsStatus
  | StartTpms (body : option (gmap string scalar))
  | StopTpms
  | Init (body : option (gmap string scalar))
  | Release
  | Status
  | ReadMsg
  | WriteMsg (body : option (gmap string jvalue)).

Section Routing.

Context {P : PCANBasic} {U : Unicode}.
Variable exc_str : exn -> string.

Definition handler_of (r : request) : M response :=
  match r with
  | GetTpmsStatus => get_tpms_status
  | StartTpms body => start_tpms_collection body
  | StopTpms => stop_tpms_collection
  | Init body => init_can body
  | Release => release_can
  | Status => get_status
  | ReadMsg => read_message
  | WriteMsg body => write_message exc_str body
  end.

Definition serve (r : request) (w : World) : response * World :=
  route (handler_of r) w.

(** The world after a sequence of requests. *)
Fixpoint serve_all (rs : list request) (w : World) : World :=
  match rs with
  | [] => w
  | r :: rest => serve_all rest (serve r w).2
  end.

(** [m] relates every world to the world it leaves behind, whether it
    returns or raises. *)
Definition keeps (I : World -> World -> Prop) {A} (m : M A) : Prop :=
  forall w, I w (m w).2.

(** Relations between the world before and after a handler. *)
Definition same_globals (w w' : World) : Prop := globals w' = globals w.

Definition same_device (w w' : World) : Prop :=
  dev w' = dev w /\ calls w' = calls w.

Definition same_channel (w w' : World) : Prop :=
  PCAN_HANDLE (globals w') = PCAN_HANDLE (globals w) /\
  BAUDRATE (globals w') = BAUDRATE (globals w) /\
  IS_FD (globals w') = IS_FD (globals w) /\
  pcan_initialized (globals w') = pcan_initialized (globals w).

Definition same_collection (w w' : World) : Prop :=
  is_tpms_collection_active (globals w') =
  is_tpms_collection_active (globals w).

(** The handle is an integer or a ctypes integer: what the vendor methods
    take. *)
Definition int_valued (o : pyobj) : Prop :=
  match o with
  | CInt _ | PyInt _ => True
  | _ => False
  end.

Definition handle_stays_int_valued (w w' : World) : Prop :=
  (int_valued (PCAN_HANDLE (globals w)) ->
   int_valued (PCAN_HANDLE (globals w'))) /\
  BAUDRATE (globals w') = BAUDRATE (globals w).

(** The calls a handler added to the log. *)
Definition new_calls (w w' : World) : list call :=
  drop (length (calls w)) (calls w').

End Routing.

(** ** Notions used in the statements about reading and writing *)

Section ReadWriteStatements.

Context {P : PCANBasic} {U : Unicode}.


(** The answer to a read that took a frame from the queue. *)
Definition frame_answer (m : can_msg) (data_len : Z) (data_bytes : list Z)
  (parsed : option TpmsReading) (ts : timestamp) : response :=
  Json 200
    [("success", JBool true);
     ("message",
      JDict [("id", JStr (PyStr.format_X 0 (msg_ID m)));
             ("msg_type", JInt (msg_MSGTYPE m));
             ("len", JInt data_len);
             ("data", JList (JInt <$> data_bytes));
             ("parsed", json_of_parsed parsed)]);
     ("timestamp_us", JInt (ts_value ts))].

(** The message type a write request asks for. *)
Definition requested_msgtype (extended rtr : bool) : Z :=
  let t0 := c_ubyte PCAN_MESSAGE_STANDARD in
  let t1 := if extended then c_ubyte (Z.lor t0 PCAN_MESSAGE_EXTENDED) else t0 in
  if rtr then c_ubyte (Z.lor t1 PCAN_MESSAGE_RTR) else t1.


(** The message [write_message] has built when it reaches the data loop. *)
Definition write_header (g : Globals) (d : gmap string jvalue) (n id : Z)
  : can_msg :=
  let msg :=
    if truthy (IS_FD g) then
      MsgFD (TPCANMsgFD.mk 0 0 (c_ubyte n) (TPCANMsgFD.DATA TPCANMsgFD.new))
    else
      Msg (TPCANMsg.mk 0 0 (c_ubyte n) (TPCANMsg.DATA TPCANMsg.new)) in
  let msg := set_ID msg id in
  let msg := set_MSGTYPE msg PCAN_MESSAGE_STANDARD in
  let msg :=
    if truthy_jvalue (dict_get d "extended" (JS (SBool false))) then
      set_MSGTYPE msg (Z.lor (msg_MSGTYPE msg) PCAN_MESSAGE_EXTENDED)
    else msg in
  if truthy_jvalue (dict_get d "rtr" (JS (SBool false))) then
    set_MSGTYPE msg (Z.lor (msg_MSGTYPE msg) PCAN_MESSAGE_RTR)
  else msg.

(** The part of [write_message] before the device is involved: the
    message it prepares from the request, or the exception it raises. *)
Definition prepare_frame (g : Globals) (d : gmap string jvalue)
  : result can_msg :=
  (let payload := dict_get d "data" (JArr []) in
   let? n := py_len payload in
   let? id :=
     match d !! "id" with
     | Some x => py_int16 x
     | None => Raise KeyError
     end in
   let? msg := fill_data (write_header g d n id) 0 (py_items payload) in
   let? _ := c_arg (PCAN_HANDLE g) in
   let? _ := if truthy (IS_FD g) then
               (let? _ := as_MsgFD msg in Ok tt)
             else
               (let? _ := as_Msg msg in Ok tt) in
   Ok msg)%result.



End ReadWriteStatements.

(** ** Notions used in the statements about initializing *)

Section InitStatements.

Context {P : PCANBasic} {U : Unicode}.

(** A request field names nothing the module knows: the key is absent, or
    its value is a string no name of the module is spelled like, or a
    number, a boolean or null.  An array or an object is not looked up at
    all. *)
Definition falls_back (g : Globals) (v : option scalar) : Prop :=
  match v with
  | Some (SStr name) => module_name g name = None
  | Some (SArr _) | Some (SObj _) => False
  | _ => True
  end.

(** The calls [init_can] may make. *)
Definition init_call (c : call) : Prop :=
  match c with
  | CInitialize _ _ | CGetErrorText _ => True
  | _ => False
  end.

Definition adds_init_calls (w w' : World) : Prop :=
  exists l, calls w' = calls w ++ l /\ Forall init_call l.

(** The 501 answer. *)
Definition fd_not_implemented : response :=
  Json 501
    [("success", JBool false);
     ("error",
      JStr "CAN-FD Initialization is not fully implemented in this example.")].

End InitStatements.

(** ** Notions used in the statements about strings *)

(** The number a string of hexadecimal digits denotes, continuing from
    [acc]. *)
Fixpoint hex_value (s : string) (acc : Z) : Z :=
  match s with
  | EmptyString => acc
  | String c s' => hex_value s' (16 * acc + default 0 (PyStr.hex_val c))
  end.

(** Every character is one of the sixteen upper-case digits. *)
Fixpoint all_hex (s : string) : Prop :=
  match s with
  | EmptyString => True
  | String c s' => (exists d, 0 <= d < 16 /\ c = PyStr.hex_digit d) /\ all_hex s'
  end.

(** The sign and the prefix [int] strips. *)
Definition strip_sign (s1 : string) : bool * string :=
  match s1 with
  | String "+"%char r => (false, r)
  | String "-"%char r => (true, r)
  | _ => (false, s1)
  end.

Definition strip_prefix (s2 : string) : string :=
  match s2 with
  | String "0"%char (String "x"%char r)
  | String "0"%char (String "X"%char r) =>
      match r with
      | String "_"%char r' => r'
      | _ => r
      end
  | _ => s2
  end.

(** * Proofs *)

Lemma all_from_spec fuel : forall n f,
  all_from fuel n f = true ->
  forall z, n <= z < n + Z.of_nat fuel -> f z = true.
Proof.
  induction fuel as [|k IH]; intros n f H z Hz.
  - simpl in Hz. lia.
  - cbn [all_from] in H. apply andb_prop in H as [Hn Hk].
    destruct (Z.eq_dec z n) as [->|Hne]; [exact Hn|].
    apply (IH (n + 1) f Hk). lia.
Qed.

Lemma all_bytes_spec f b : all_bytes f = true -> is_byte b -> f b = true.
Proof.
  intros H Hb. apply (all_from_spec 256 0 f H). unfold is_byte in Hb. simpl. lia.
Qed.

Lemma temperature_table :
  all_bytes (fun b5 => all_bytes (fun b4 =>
    temperature_check (Z.lor (Z.shiftl b5 8) b4))) = true.
Proof. vm_compute. reflexivity. Qed.

Lemma battery_table : all_bytes battery_check = true.
Proof. vm_compute. reflexivity. Qed.

(** ** The decoder *)

Section Decoder.

Import PyFloat.

Lemma parse_sensor_data_short (p : list Z) :
  (length p < 7)%nat -> parse_sensor_data p = None.
Proof.
  intros H. unfold parse_sensor_data, parse_sensor_data_try.
  apply Nat.ltb_lt in H. rewrite H. reflexivity.
Qed.

(** On seven bytes or more only the two divisions remain. *)
Lemma parse_sensor_data_try_cons7 b0 b1 b2 b3 b4 b5 b6 rest :
  parse_sensor_data_try (b0 :: b1 :: b2 :: b3 :: b4 :: b5 :: b6 :: rest) =
  (let? t := truediv (Z.lor (Z.shiftl b5 8) b4 - 8500) 100 in
   let? w := truediv (b6 * 10 + 2000) 1000 in
   Ok (Some {| sensor_id := b0;
               packet_type := b1;
               pressure := Z.lor (Z.shiftl b2 8) b3;
               temperature := round2 t;
               battery_watts := round2 w |}))%result.
Proof. reflexivity. Qed.

Lemma long_list_inv (p : list Z) :
  (7 <= length p)%nat ->
  exists b0 b1 b2 b3 b4 b5 b6 rest,
    p = b0 :: b1 :: b2 :: b3 :: b4 :: b5 :: b6 :: rest.
Proof.
  intros H.
  do 7 (destruct p as [|? p]; [simpl in H; lia|]).
  eauto 10.
Qed.

Lemma truediv_small z d :
  Z.abs z < exact_bound -> PrimFloat.eqb d 0 = false ->
  truediv z d = Ok (PrimFloat.div (of_int_exact z) d).
Proof.
  intros Hz Hd. unfold truediv, float_of_int.
  apply Z.ltb_lt in Hz. rewrite Hz. cbn [rbind]. rewrite Hd. reflexivity.
Qed.

Lemma temperature_of_bytes b5 b4 :
  is_byte b5 -> is_byte b4 ->
  let raw := Z.lor (Z.shiftl b5 8) b4 in
  exists t,
    truediv (raw - 8500) 100 = Ok t /\
    round2 t = t /\
    hundredths t = Some (raw - 8500) /\
    (raw < 8500 -> PrimFloat.ltb t 0 = true) /\
    (8500 <= raw -> PrimFloat.leb 0 t = true).
Proof.
  intros H5 H4 raw.
  pose proof (all_bytes_spec _ b5 temperature_table H5) as H. cbv beta in H.
  pose proof (all_bytes_spec _ b4 H H4) as Hc. cbv beta in Hc.
  unfold temperature_check in Hc. fold raw in Hc.
  destruct (truediv (raw - 8500) 100) as [t|]; [|discriminate].
  apply andb_prop in Hc as [Hc Hs]. apply andb_prop in Hc as [Hr Hh].
  exists t. split; [reflexivity|].
  split; [apply FloatAxioms.Leibniz.eqb_spec; exact Hr|].
  split.
  { unfold opt_Z_eqb in Hh. destruct (hundredths t) as [k|]; [|discriminate].
    apply Z.eqb_eq in Hh. congruence. }
  split; intros Hlt.
  - apply Z.ltb_lt in Hlt. rewrite Hlt in Hs. exact Hs.
  - apply Z.ltb_ge in Hlt. rewrite Hlt in Hs. exact Hs.
Qed.

Lemma battery_of_byte b6 :
  is_byte b6 ->
  exists w,
    truediv (b6 * 10 + 2000) 1000 = Ok w /\
    round2 w = w /\
    hundredths w = Some (b6 + 200).
Proof.
  intros H6.
  pose proof (all_bytes_spec _ b6 battery_table H6) as Hc.
  unfold battery_check in Hc.
  destruct (truediv (b6 * 10 + 2000) 1000) as [w|]; [|discriminate].
  apply andb_prop in Hc as [Hr Hh].
  exists w. split; [reflexivity|].
  split; [apply FloatAxioms.Leibniz.eqb_spec; exact Hr|].
  unfold opt_Z_eqb in Hh. destruct (hundredths w) as [k|]; [|discriminate].
  apply Z.eqb_eq in Hh. congruence.
Qed.

(** Seven bytes or more always decode. *)
Lemma parse_sensor_data_bytes b0 b1 b2 b3 b4 b5 b6 rest :
  is_byte b4 -> is_byte b5 -> is_byte b6 ->
  exists t w,
    truediv (Z.lor (Z.shiftl b5 8) b4 - 8500) 100 = Ok t /\
    truediv (b6 * 10 + 2000) 1000 = Ok w /\
    parse_sensor_data (b0 :: b1 :: b2 :: b3 :: b4 :: b5 :: b6 :: rest) =
    Some {| sensor_id := b0;
            packet_type := b1;
            pressure := Z.lor (Z.shiftl b2 8) b3;
            temperature := t;
            battery_watts := w |}.
Proof.
  intros H4 H5 H6.
  destruct (temperature_of_bytes b5 b4 H5 H4) as (t & Ht & Hrt & _).
  destruct (battery_of_byte b6 H6) as (w & Hw & Hrw & _).
  exists t, w. split; [exact Ht|]. split; [exact Hw|].
  unfold parse_sensor_data. rewrite parse_sensor_data_try_cons7.
  rewrite Ht, Hw. cbn [rbind]. rewrite Hrt, Hrw. reflexivity.
Qed.

End Decoder.

(** Seven bytes or more always give a reading. *)
Lemma parse_sensor_data_none_iff_short_aux (p : list Z) :
  Forall is_byte p -> (7 <= length p)%nat ->
  exists r, parse_sensor_data p = Some r.
Proof.
  intros Hp Hlen.
  destruct (long_list_inv p Hlen)
    as (b0 & b1 & b2 & b3 & b4 & b5 & b6 & rest & ->).
  destruct (parse_sensor_data_bytes b0 b1 b2 b3 b4 b5 b6 rest)
    as (t & w & _ & _ & Hr).
  - exact (proj1 (Forall_lookup _ _) Hp 4%nat b4 eq_refl).
  - exact (proj1 (Forall_lookup _ _) Hp 5%nat b5 eq_refl).
  - exact (proj1 (Forall_lookup _ _) Hp 6%nat b6 eq_refl).
  - eauto.
Qed.

(** ** Claims about the decoder *)

Section DecoderClaims.

Import PyFloat.

Lemma raw16_bounds hi lo :
  is_byte hi -> is_byte lo -> 0 <= Z.lor (Z.shiftl hi 8) lo < 65536.
Proof.
  unfold is_byte. intros Hhi Hlo.
  assert (Hs : Z.shiftl hi 8 = hi * 256)
    by (rewrite Z.shiftl_mul_pow2 by lia; reflexivity).
  split.
  - apply Z.lor_nonneg. lia.
  - pose proof (Z.add_lor_land (Z.shiftl hi 8) lo) as Hadd.
    assert (0 <= Z.land (Z.shiftl hi 8) lo) by (apply Z.land_nonneg; lia).
    lia.
Qed.

Lemma Forall_is_byte_lookup (p : list Z) i b :
  Forall is_byte p -> p !! i = Some b -> is_byte b.
Proof. intros Hp Hi. exact (proj1 (Forall_lookup _ _) Hp i b Hi). Qed.

(** C2. On a sequence of bytes the decoder returns [None] exactly when
    fewer than seven bytes are given, and a reading for every longer
    payload.  The decoder is a function of the payload alone: it takes no
    state and returns none, so equal payloads give equal readings. *)
Theorem parse_sensor_data_none_iff_short (p : list Z) :
  Forall is_byte p ->
  (parse_sensor_data p = None <-> (length p < 7)%nat) /\
  ((7 <= length p)%nat -> exists r, parse_sensor_data p = Some r).
Proof.
  intros Hp.
  assert (Hlong : (7 <= length p)%nat -> exists r, parse_sensor_data p = Some r).
  { intros Hlen.
    destruct (long_list_inv p Hlen)
      as (b0 & b1 & b2 & b3 & b4 & b5 & b6 & rest & ->).
    destruct (parse_sensor_data_bytes b0 b1 b2 b3 b4 b5 b6 rest)
      as (t & w & _ & _ & Hr).
    - apply (Forall_is_byte_lookup _ 4%nat _ Hp). reflexivity.
    - apply (Forall_is_byte_lookup _ 5%nat _ Hp). reflexivity.
    - apply (Forall_is_byte_lookup _ 6%nat _ Hp). reflexivity.
    - eauto. }
  split; [|exact Hlong].
  split.
  - intros Hnone. destruct (Nat.lt_ge_cases (length p) 7) as [Hlt|Hge].
    + exact Hlt.
    + destruct (Hlong Hge) as [r Hr]. congruence.
  - apply parse_sensor_data_short.
Qed.

Lemma parse_sensor_data_none_iff_short_witness :
  (parse_sensor_data [3; 1; 1; 0; 0x34; 0x21; 255; 0] = None <->
   (length [3; 1; 1; 0; 0x34; 0x21; 255; 0] < 7)%nat) /\
  ((7 <= length [3; 1; 1; 0; 0x34; 0x21; 255; 0])%nat ->
   exists r, parse_sensor_data [3; 1; 1; 0; 0x34; 0x21; 255; 0] = Some r).
Proof.
  apply parse_sensor_data_none_iff_short.
  repeat constructor; unfold is_byte; lia.
Defined.

(** C3. For a payload of at least seven bytes the decoded temperature is
    [((p[5] << 8 | p[4]) - 8500) / 100] rounded to two decimals, byte 5
    being the high byte.  The rounding leaves the quotient as it is, the
    value reads as [temp_raw - 8500] hundredths; bytes 4 and 5 both zero
    give -85.00, a raw value of 8500 gives 0.00, and a raw value below
    8500 gives a negative temperature. *)
Theorem temperature_decoded (p : list Z) (b4 b5 : Z) :
  Forall is_byte p -> (7 <= length p)%nat ->
  p !! 4%nat = Some b4 -> p !! 5%nat = Some b5 ->
  let temp_raw := Z.lor (Z.shiftl b5 8) b4 in
  exists r,
    parse_sensor_data p = Some r /\
    temperature r =
      round2 (PrimFloat.div (of_int_exact (temp_raw - 8500)) 100) /\
    temperature r = PrimFloat.div (of_int_exact (temp_raw - 8500)) 100 /\
    hundredths (temperature r) = Some (temp_raw - 8500) /\
    (b4 = 0 -> b5 = 0 -> temperature r = (-85)%float) /\
    (temp_raw = 8500 -> temperature r = 0%float) /\
    (temp_raw < 8500 -> PrimFloat.ltb (temperature r) 0 = true).
Proof.
  intros Hp Hlen H4 H5 temp_raw.
  destruct (long_list_inv p Hlen)
    as (c0 & c1 & c2 & c3 & c4 & c5 & c6 & rest & ->).
  cbn in H4, H5. injection H4 as ->. injection H5 as ->.
  assert (Hb4 : is_byte b4)
    by (apply (Forall_is_byte_lookup _ 4%nat _ Hp); reflexivity).
  assert (Hb5 : is_byte b5)
    by (apply (Forall_is_byte_lookup _ 5%nat _ Hp); reflexivity).
  assert (Hb6 : is_byte c6)
    by (apply (Forall_is_byte_lookup _ 6%nat _ Hp); reflexivity).
  destruct (parse_sensor_data_bytes c0 c1 c2 c3 b4 b5 c6 rest Hb4 Hb5 Hb6)
    as (t & w & Ht & _ & Hr).
  destruct (temperature_of_bytes b5 b4 Hb5 Hb4)
    as (t' & Ht' & Hround & Hh & Hneg & _).
  fold temp_raw in Ht, Ht', Hh, Hneg.
  assert (t' = t) as -> by congruence.
  assert (Hq : t = PrimFloat.div (of_int_exact (temp_raw - 8500)) 100).
  { rewrite truediv_small in Ht.
    - congruence.
    - pose proof (raw16_bounds b5 b4 Hb5 Hb4) as Hraw. fold temp_raw in Hraw.
      unfold exact_bound. lia.
    - reflexivity. }
  exists {| sensor_id := c0; packet_type := c1;
            pressure := Z.lor (Z.shiftl c2 8) c3;
            temperature := t; battery_watts := w |}.
  cbn [temperature].
  split; [exact Hr|].
  split; [rewrite <- Hq; symmetry; exact Hround|].
  split; [exact Hq|].
  split; [exact Hh|].
  split; [|split].
  - intros -> ->. rewrite Hq. vm_compute. reflexivity.
  - intros Heq. rewrite Hq, Heq. vm_compute. reflexivity.
  - exact Hneg.
Qed.

Lemma temperature_decoded_witness :
  exists r,
    parse_sensor_data [3; 1; 1; 0; 0x34; 0x21; 255; 0] = Some r /\
    temperature r =
      round2 (PrimFloat.div
                (of_int_exact (Z.lor (Z.shiftl 0x21 8) 0x34 - 8500)) 100) /\
    temperature r =
      PrimFloat.div (of_int_exact (Z.lor (Z.shiftl 0x21 8) 0x34 - 8500)) 100 /\
    hundredths (temperature r) =
      Some (Z.lor (Z.shiftl 0x21 8) 0x34 - 8500) /\
    (0x34 = 0 -> 0x21 = 0 -> temperature r = (-85)%float) /\
    (Z.lor (Z.shiftl 0x21 8) 0x34 = 8500 -> temperature r = 0%float) /\
    (Z.lor (Z.shiftl 0x21 8) 0x34 < 8500 ->
     PrimFloat.ltb (temperature r) 0 = true).
Proof.
  apply (temperature_decoded [3; 1; 1; 0; 0x34; 0x21; 255; 0] 0x34 0x21).
  - repeat constructor; unfold is_byte; lia.
  - simpl. lia.
  - reflexivity.
  - reflexivity.
Defined.

(** C9. For a payload of at least seven bytes the decoded battery value
    is [((p[6] * 10) + 2000) / 1000] rounded to two decimals; the rounding
    leaves the quotient as it is and the value reads as [p[6] + 200]
    hundredths of a watt.  Byte 6 equal to 0 gives 2.00 and 255 gives
    4.55. *)
Theorem battery_decoded (p : list Z) (b6 : Z) :
  Forall is_byte p -> (7 <= length p)%nat ->
  p !! 6%nat = Some b6 ->
  exists r,
    parse_sensor_data p = Some r /\
    battery_watts r =
      round2 (PrimFloat.div (of_int_exact (b6 * 10 + 2000)) 1000) /\
    battery_watts r = PrimFloat.div (of_int_exact (b6 * 10 + 2000)) 1000 /\
    hundredths (battery_watts r) = Some (b6 + 200) /\
    (b6 = 0 -> battery_watts r = 2%float) /\
    (b6 = 255 -> battery_watts r = 4.55%float).
Proof.
  intros Hp Hlen H6.
  destruct (long_list_inv p Hlen)
    as (c0 & c1 & c2 & c3 & c4 & c5 & c6 & rest & ->).
  cbn in H6. injection H6 as ->.
  assert (Hb4 : is_byte c4)
    by (apply (Forall_is_byte_lookup _ 4%nat _ Hp); reflexivity).
  assert (Hb5 : is_byte c5)
    by (apply (Forall_is_byte_lookup _ 5%nat _ Hp); reflexivity).
  assert (Hb6 : is_byte b6)
    by (apply (Forall_is_byte_lookup _ 6%nat _ Hp); reflexivity).
  destruct (parse_sensor_data_bytes c0 c1 c2 c3 c4 c5 b6 rest Hb4 Hb5 Hb6)
    as (t & w & _ & Hw & Hr).
  destruct (battery_of_byte b6 Hb6) as (w' & Hw' & Hround & Hh).
  assert (w' = w) as -> by congruence.
  assert (Hq : w = PrimFloat.div (of_int_exact (b6 * 10 + 2000)) 1000).
  { rewrite truediv_small in Hw.
    - congruence.
    - unfold is_byte in Hb6. unfold exact_bound. lia.
    - reflexivity. }
  exists {| sensor_id := c0; packet_type := c1;
            pressure := Z.lor (Z.shiftl c2 8) c3;
            temperature := t; battery_watts := w |}.
  cbn [battery_watts].
  split; [exact Hr|].
  split; [rewrite <- Hq; symmetry; exact Hround|].
  split; [exact Hq|].
  split; [exact Hh|].
  split.
  - intros ->. rewrite Hq. vm_compute. reflexivity.
  - intros ->. rewrite Hq. vm_compute. reflexivity.
Qed.

Lemma battery_decoded_witness :
  exists r,
    parse_sensor_data [3; 1; 1; 0; 0x34; 0x21; 255; 0] = Some r /\
    battery_watts r =
      round2 (PrimFloat.div (of_int_exact (255 * 10 + 2000)) 1000) /\
    battery_watts r = PrimFloat.div (of_int_exact (255 * 10 + 2000)) 1000 /\
    hundredths (battery_watts r) = Some (255 + 200) /\
    (255 = 0 -> battery_watts r = 2%float) /\
    (255 = 255 -> battery_watts r = 4.55%float).
Proof.
  apply (battery_decoded [3; 1; 1; 0; 0x34; 0x21; 255; 0] 255).
  - repeat constructor; unfold is_byte; lia.
  - simpl. lia.
  - reflexivity.
Defined.

(** C10. Two payloads of at least seven values that agree on their first
    seven decode to the same result: what follows index 6 is ignored. *)
Theorem parse_sensor_data_first_seven (p q : list Z) :
  (7 <= length p)%nat -> (7 <= length q)%nat ->
  take 7 p = take 7 q ->
  parse_sensor_data p = parse_sensor_data q.
Proof.
  intros Hp Hq Heq.
  destruct (long_list_inv p Hp)
    as (b0 & b1 & b2 & b3 & b4 & b5 & b6 & rest & ->).
  destruct (long_list_inv q Hq)
    as (c0 & c1 & c2 & c3 & c4 & c5 & c6 & rest' & ->).
  cbn in Heq. injection Heq as -> -> -> -> -> -> ->.
  unfold parse_sensor_data. rewrite !parse_sensor_data_try_cons7.
  reflexivity.
Qed.

Lemma parse_sensor_data_first_seven_witness :
  parse_sensor_data [3; 1; 1; 0; 0x34; 0x21; 255; 0] =
  parse_sensor_data [3; 1; 1; 0; 0x34; 0x21; 255; 99; 98].
Proof.
  apply parse_sensor_data_first_seven.
  - simpl. lia.
  - simpl. lia.
  - reflexivity.
Defined.

End DecoderClaims.

(** ** The handlers *)

Section Handlers.

Context {P : PCANBasic} {U : Unicode}.
Variable exc_str : exn -> string.

Lemma truthy_body_lookup {V} (d : gmap string V) k v :
  d !! k = Some v -> truthy_body (Some d) = true.
Proof.
  intros Hk. unfold truthy_body.
  destruct (Nat.eqb (size d) 0) eqn:Hs; [|reflexivity].
  apply Nat.eqb_eq in Hs. apply map_size_empty_inv in Hs. subst d.
  rewrite lookup_empty in Hk. discriminate.
Qed.

(** *** Computations that do not look at [pcan_initialized] *)

Lemma ignores_ret {A} (a : A) : ignores_initialized (ret a).
Proof. intros w b. reflexivity. Qed.

Lemma ignores_raise {A} e : ignores_initialized (raise (A := A) e).
Proof. intros w b. reflexivity. Qed.

Lemma ignores_lift {A} (r : result A) : ignores_initialized (lift r).
Proof. intros w b. reflexivity. Qed.

Lemma ignores_pcan_call {A} c (method : device -> A * device) :
  ignores_initialized (pcan_call c method).
Proof.
  intros w b. unfold pcan_call, with_initialized. cbn.
  destruct (method (dev w)) as [a d']. reflexivity.
Qed.

Lemma ignores_bind {A B} (m : M A) (k : A -> M B) :
  ignores_initialized m -> (forall a, ignores_initialized (k a)) ->
  ignores_initialized (bind m k).
Proof.
  intros Hm Hk w b. unfold bind. rewrite Hm.
  destruct (m w) as [[a|e] w']; cbn; [apply Hk|reflexivity].
Qed.

(** Reading the globals is harmless when what follows does not depend on
    the flag. *)
Lemma ignores_get_globals {B} (k : Globals -> M B) :
  (forall g b, k (set_pcan_initialized b g) = k g) ->
  (forall g, ignores_initialized (k g)) ->
  ignores_initialized (bind get_globals k).
Proof.
  intros Hdep Hk w b. unfold bind, get_globals. cbn.
  rewrite Hdep. apply Hk.
Qed.

Lemma ignores_try_except {A} (m : M A) caught handler :
  ignores_initialized m -> (forall e, ignores_initialized (handler e)) ->
  ignores_initialized (try_except m caught handler).
Proof.
  intros Hm Hh w b. unfold try_except. rewrite Hm.
  destruct (m w) as [[a|e] w']; cbn; [reflexivity|].
  destruct (caught e); [apply Hh|reflexivity].
Qed.

Lemma ignores_route (m : M response) w b :
  ignores_initialized m ->
  route m (with_initialized b w) =
  ((route m w).1, with_initialized b (route m w).2).
Proof.
  intros Hm. unfold route. rewrite Hm.
  destruct (m w) as [[r|e] w']; reflexivity.
Qed.

Lemma ignores_get_error_text status :
  ignores_initialized (get_error_text status).
Proof.
  unfold get_error_text. apply ignores_bind; [apply ignores_pcan_call|].
  intros t. destruct (t.1 =? PCAN_ERROR_OK);
    [apply ignores_lift | apply ignores_ret].
Qed.

Ltac ignores_step :=
  first
    [ apply ignores_ret
    | apply ignores_raise
    | apply ignores_lift
    | apply ignores_pcan_call
    | apply ignores_get_error_text
    | apply ignores_get_globals; [intros; reflexivity | intros]
    | apply ignores_try_except; [|intros]
    | apply ignores_bind; [|intros]
    | match goal with
      | |- ignores_initialized (if ?c then _ else _) => destruct c
      | |- ignores_initialized (match ?x with _ => _ end) => destruct x
      end ].

Lemma read_message_ignores_initialized : ignores_initialized read_message.
Proof. unfold read_message. repeat ignores_step. Qed.

Lemma write_message_ignores_initialized data :
  ignores_initialized (write_message exc_str data).
Proof. unfold write_message. repeat ignores_step. Qed.

(** *** Running the small pieces *)

Lemma get_error_text_run status w :
  get_error_text status w =
  (error_text status (dev w),
   after_call w (CGetErrorText status) (pcan_GetErrorText status (dev w)).2).
Proof.
  unfold get_error_text, error_text, bind, pcan_call, after_call, ret, lift.
  destruct (pcan_GetErrorText status (dev w)) as [[st text] d']. cbn.
  destruct (st =? PCAN_ERROR_OK); reflexivity.
Qed.


Lemma QRCVEMPTY_eqb_OK : (PCAN_ERROR_OK =? PCAN_ERROR_QRCVEMPTY) = false.
Proof.
  apply Z.eqb_neq. intros H. apply PCAN_ERROR_QRCVEMPTY_not_OK. congruence.
Qed.

(** *** Claims about the collection state *)

(** C7 (as the code has it). [start] switches the collection flag on and
    [stop] switches it off; [status] reports the flag, and nothing else, in
    ["is_collecting"].  The tire count of the request is neither stored nor
    reported: the world after [start] is the same for every request body. *)
Theorem tpms_collection_state (w : World) (d : gmap string scalar) :
  let w1 := with_globals (set_is_tpms_collection_active true (globals w)) w in
  let w2 := with_globals (set_is_tpms_collection_active false (globals w1)) w1 in
  (route (start_tpms_collection (Some d)) w).2 = w1 /\
  route get_tpms_status w1 =
    (Json 200 [("success", JBool true); ("is_collecting", JBool true)], w1) /\
  (route stop_tpms_collection w1).2 = w2 /\
  route get_tpms_status w2 =
    (Json 200 [("success", JBool true); ("is_collecting", JBool false)], w2).
Proof.
  repeat split.
  unfold route, start_tpms_collection, bind, modify_globals, get_globals,
    lift, ret.
  cbn. destruct (print_value _); reflexivity.
Qed.

(** *** Claims about the channel *)

(** C1 (as the code has it). Reading and writing never consult
    [pcan_initialized]: whatever the flag, a read forwards its [Read] or
    [ReadFD] call to the device, and the answer, the device calls and the
    device state of a read and of a write are those of the same request
    with the flag set the other way. *)
Theorem read_write_ignore_pcan_initialized (w : World) (h : Z) :
  c_arg (PCAN_HANDLE (globals w)) = Ok h ->
  (exists rest,
     calls (route read_message w).2 =
     calls w ++ read_call (globals w) h :: rest) /\
  (forall b,
     route read_message (with_initialized b w) =
     ((route read_message w).1,
      with_initialized b (route read_message w).2)) /\
  (forall data b,
     route (write_message exc_str data) (with_initialized b w) =
     ((route (write_message exc_str data) w).1,
      with_initialized b (route (write_message exc_str data) w).2)).
Proof.
  intros Hh. split; [|split].
  - unfold route, read_message, read_call, get_error_text, bind, get_globals,
      lift, pcan_call, ret.
    cbn. rewrite Hh. cbn.
    destruct (truthy (IS_FD (globals w))).
    + destruct (pcan_ReadFD h (dev w)) as [[[st m] t] d']. cbn.
      repeat (case_match; simplify_eq; cbn in * );
        rewrite <- ?app_assoc; eauto.
    + destruct (pcan_Read h (dev w)) as [[[st m] t] d']. cbn.
      repeat (case_match; simplify_eq; cbn in * );
        rewrite <- ?app_assoc; eauto.
  - intros b. apply ignores_route, read_message_ignores_initialized.
  - intros data b. apply ignores_route, write_message_ignores_initialized.
Qed.

(** C4. A classic frame's timestamp is answered as
    [micros + 1000 * millis + 2^32 * 1000 * millis_overflow], an FD frame's
    64-bit microsecond counter is answered as it is; both under the key
    ["timestamp_us"]. *)
Theorem read_message_timestamp_us (w : World) (h : Z) :
  c_arg (PCAN_HANDLE (globals w)) = Ok h ->
  (truthy (IS_FD (globals w)) = false ->
   forall m t d' data_bytes,
     pcan_Read h (dev w) = (PCAN_ERROR_OK, m, t, d') ->
     read_data (Msg m) (TPCANMsg.LEN m) = Ok data_bytes ->
     exists msg_data,
       route read_message w =
       (Json 200
          [("success", JBool true);
           ("message", JDict msg_data);
           ("timestamp_us",
            JInt (TPCANTimestamp.micros t + 1000 * TPCANTimestamp.millis t
                  + 2 ^ 32 * 1000 * TPCANTimestamp.millis_overflow t))],
        after_call w (CRead h) d')) /\
  (truthy (IS_FD (globals w)) = true ->
   forall m value d' data_bytes,
     pcan_ReadFD h (dev w) = (PCAN_ERROR_OK, m, value, d') ->
     read_data (MsgFD m) (TPCANMsgFD.DLC m) = Ok data_bytes ->
     exists msg_data,
       route read_message w =
       (Json 200
          [("success", JBool true);
           ("message", JDict msg_data);
           ("timestamp_us", JInt value)],
        after_call w (CReadFD h) d')).
Proof.
  intros Hh. split.
  - intros Hfd m t d' data_bytes Hread Hdata.
    unfold route, read_message, bind, get_globals, lift, pcan_call, ret.
    cbn. rewrite Hh. cbn. rewrite Hfd. cbn. rewrite Hread. cbn.
    rewrite QRCVEMPTY_eqb_OK, Z.eqb_refl. cbn. rewrite Hdata. cbn.
    eexists. reflexivity.
  - intros Hfd m value d' data_bytes Hread Hdata.
    unfold route, read_message, bind, get_globals, lift, pcan_call, ret.
    cbn. rewrite Hh. cbn. rewrite Hfd. cbn. rewrite Hread. cbn.
    rewrite QRCVEMPTY_eqb_OK, Z.eqb_refl. cbn. rewrite Hdata. cbn.
    eexists. reflexivity.
Qed.

(** An array or an object as the channel or the baud rate of a non-empty
    request makes the name lookup raise [TypeError], before ["is_fd"] is
    read: the request is a server error and nothing has changed. *)
Lemma init_can_unhashable_name (w : World) (d : gmap string scalar) :
  truthy_body (Some d) = true -> ~ hashable_names d ->
  route (init_can (Some d)) w = (ServerError TypeError, w).
Proof.
  intros Hbody Hn. unfold hashable_names in Hn.
  unfold route, init_can, bind, get_globals, modify_globals, ret, lift.
  rewrite Hbody.
  destruct (dict_get d "channel" (SStr "PCAN_USBBUS1")) eqn:Hc;
    destruct (dict_get d "baudrate" (SStr "PCAN_BAUD_500K")) eqn:Hb;
    cbn; try (destruct w; reflexivity); exfalso; apply Hn; split; reflexivity.
Qed.


(** [init_can] in classic mode, once the request is resolved to
    integers. *)
Lemma init_can_resolved (w : World) (data : option (gmap string scalar))
  (hv bv : Z) :
  let g := globals w in
  let g1 := set_IS_FD (resolved_is_fd g data) g in
  truthy (resolved_is_fd g data) = false ->
  value_or_self (resolved_handle g data) = PyInt hv ->
  value_or_self (resolved_baudrate g data) = PyInt bv ->
  init_can data w =
  (let! _ := modify_globals (fun _ => g1) in
   let! st := pcan_call (CInitialize hv bv) (pcan_Initialize hv bv) in
   if st =? PCAN_ERROR_OK then
     let! _ := modify_globals (set_PCAN_HANDLE (resolved_handle g data)) in
     let! _ := modify_globals (set_pcan_initialized true) in
     ret (Json 200
            [("success", JBool true);
             ("message",
              JStr ("Channel " +:+ PyStr.format_X 2 hv +:+
                    "h initialized successfully at the specified baudrate."))])
   else
     let! _ := modify_globals (set_pcan_initialized false) in
     let! text := get_error_text st in
     ret (Json 500 [("success", JBool false); ("error", JStr text)]))%handler
  w.
Proof.
  destruct w as [[ph br fd ini act] dv cl].
  intros g g1 Hfd Hh Hb.
  unfold init_can, resolved_is_fd, resolved_handle, resolved_baudrate in *.
  subst g1 g.
  unfold bind, get_globals, modify_globals, ret, lift.
  destruct data as [d|]; [destruct (truthy_body (Some d)) eqn:Hbody|];
    cbn; cbn in Hfd, Hh, Hb.
  - destruct (globals_get _ (dict_get d "channel" _) _) as [ho|];
      [|discriminate Hh].
    destruct (globals_get _ (dict_get d "baudrate" _) _) as [bo|];
      [|discriminate Hb].
    cbn in *. rewrite Hfd, Hh, Hb. cbn. reflexivity.
  - rewrite Hfd, Hh, Hb. cbn. reflexivity.
  - rewrite Hfd, Hh, Hb. cbn. reflexivity.
Qed.


End Handlers.

(** C1 (as stated) fails: in the world of a freshly loaded module
    [pcan_initialized] is false, yet a read is answered with status 200 and
    has called [Read] on the device, and a write is answered with status 200
    and has handed its frame to [Write]. *)
Lemma uninitialized_read_write_reach_device :
  let w := start_world idle_device in
  pcan_initialized (globals w) = false /\
  route read_message w =
    (Json 200 [("success", JBool true);
               ("message", JStr "Receive queue is empty.")],
     after_call w (CRead 0x51) idle_device) /\
  route (write_message no_exc_str (Some write_request)) w =
    (Json 200 [("success", JBool true);
               ("message", JStr "Message sent successfully.")],
     after_call w
       (CWrite 0x51 (TPCANMsg.mk 0x100 0 8 [1; 2; 3; 4; 5; 6; 7; 8]))
       idle_device).
Proof. vm_compute. repeat split. Qed.

Lemma read_write_ignore_pcan_initialized_witness :
  exists rest,
    calls (route read_message (start_world ready_device)).2 =
    calls (start_world ready_device)
    ++ read_call (globals (start_world ready_device)) 0x51 :: rest.
Proof.
  apply (read_write_ignore_pcan_initialized no_exc_str
           (start_world ready_device) 0x51).
  reflexivity.
Defined.

Lemma read_message_timestamp_us_witness :
  exists msg_data,
    route read_message (start_world ready_device) =
    (Json 200
       [("success", JBool true);
        ("message", JDict msg_data);
        ("timestamp_us", JInt (7 + 1000 * 5 + 2 ^ 32 * 1000 * 1))],
     after_call (start_world ready_device) (CRead 0x51) ready_device).
Proof.
  destruct (read_message_timestamp_us (start_world ready_device) 0x51 eq_refl)
    as [Hclassic _].
  apply (Hclassic eq_refl tpms_frame frame_stamp ready_device
           [3; 1; 1; 0; 0x34; 0x21; 255; 0]); reflexivity.
Defined.





Section NineBytes.

Context {U : Unicode}.

(** C6 in the code: a classic write with nine data bytes.  Storing the
    ninth byte raises [IndexError], which the handler does not catch: the
    answer is a server error (status 500), not a 400.  The device is not
    called and nothing changes. *)
Theorem write_nine_bytes_server_error (exc_str : exn -> string) (d : script) :
  route (write_message exc_str (Some long_write_request)) (start_world d) =
  (ServerError IndexError, start_world d).
Proof. vm_compute. reflexivity. Qed.

End NineBytes.

(** C7 (as stated) fails: after [start] with a tire count of 4 the status
    answer has the two keys ["success"] and ["is_collecting"]; it has no
    ["tire_count"], and none of its fields holds the count. *)
Lemma tpms_status_without_tire_count :
  let w1 :=
    (route (start_tpms_collection (Some {[ "tire_count" := SNum 4 ]}))
           (start_world idle_device)).2 in
  exists body,
    (route get_tpms_status w1).1 = Json 200 body /\
    json_get "tire_count" body = None /\
    forall k, json_get k body <> Some (JInt 4).
Proof.
  eexists. split; [reflexivity|]. split; [reflexivity|].
  intros k. cbn. repeat (case_match; try discriminate).
Qed.

(** ** What the handlers leave alone *)

Section Frames.

Context {P : PCANBasic} {U : Unicode}.
Variable exc_str : exn -> string.

Section Keeps.

Variable I : World -> World -> Prop.
Hypothesis I_refl : forall w, I w w.
Hypothesis I_trans : forall w1 w2 w3, I w1 w2 -> I w2 w3 -> I w1 w3.

Lemma keeps_ret {A} (a : A) : keeps I (ret a).
Proof. intros w. apply I_refl. Qed.

Lemma keeps_raise {A} e : keeps I (raise (A := A) e).
Proof. intros w. apply I_refl. Qed.

Lemma keeps_lift {A} (r : result A) : keeps I (lift r).
Proof. intros w. apply I_refl. Qed.

Lemma keeps_get_globals : keeps I get_globals.
Proof. intros w. apply I_refl. Qed.

Lemma keeps_bind {A B} (m : M A) (k : A -> M B) :
  keeps I m -> (forall a, keeps I (k a)) -> keeps I (bind m k).
Proof.
  intros Hm Hk w. unfold bind. specialize (Hm w).
  destruct (m w) as [[a|e] w']; cbn in *; [|exact Hm].
  eapply I_trans; [exact Hm|apply Hk].
Qed.

(** After a pure step that may raise, the rest runs only on success. *)
Lemma keeps_bind_lift {A B} (r : result A) (k : A -> M B) :
  (forall a, r = Ok a -> keeps I (k a)) -> keeps I (bind (lift r) k).
Proof.
  intros Hk w. unfold bind, lift. destruct r as [a|e]; [|apply I_refl].
  apply (Hk a eq_refl).
Qed.

Lemma keeps_try_except {A} (m : M A) caught handler :
  keeps I m -> (forall e, keeps I (handler e)) ->
  keeps I (try_except m caught handler).
Proof.
  intros Hm Hh w. unfold try_except. specialize (Hm w).
  destruct (m w) as [[a|e] w']; cbn in *; [exact Hm|].
  destruct (caught e); [|exact Hm].
  eapply I_trans; [exact Hm|apply Hh].
Qed.

Lemma keeps_pcan_call {A} c (method : device -> A * device) :
  (forall w d', I w (after_call w c d')) -> keeps I (pcan_call c method).
Proof.
  intros Hc w. unfold pcan_call.
  destruct (method (dev w)) as [a d'] eqn:Hm. apply Hc.
Qed.

Lemma keeps_modify_globals f :
  (forall w, I w (with_globals (f (globals w)) w)) ->
  keeps I (modify_globals f).
Proof. intros Hf w. apply Hf. Qed.

Lemma keeps_route (m : M response) w : keeps I m -> I w (route m w).2.
Proof.
  intros Hm. unfold route. specialize (Hm w).
  destruct (m w) as [[r|e] w']; exact Hm.
Qed.

End Keeps.

Lemma same_globals_refl w : same_globals w w.
Proof. reflexivity. Qed.

Lemma same_globals_trans w1 w2 w3 :
  same_globals w1 w2 -> same_globals w2 w3 -> same_globals w1 w3.
Proof. unfold same_globals. congruence. Qed.

Lemma same_globals_call {A} c (method : device -> A * device) :
  keeps same_globals (pcan_call c method).
Proof. apply keeps_pcan_call. reflexivity. Qed.

Lemma same_globals_error_text status :
  keeps same_globals (get_error_text status).
Proof. intros w. rewrite get_error_text_run. reflexivity. Qed.

Lemma same_device_refl w : same_device w w.
Proof. split; reflexivity. Qed.

Lemma same_device_trans w1 w2 w3 :
  same_device w1 w2 -> same_device w2 w3 -> same_device w1 w3.
Proof. unfold same_device. intros [-> ->] [-> ->]. split; reflexivity. Qed.

Lemma same_channel_refl w : same_channel w w.
Proof. repeat split. Qed.

Lemma same_channel_trans w1 w2 w3 :
  same_channel w1 w2 -> same_channel w2 w3 -> same_channel w1 w3.
Proof.
  unfold same_channel. intros (-> & -> & -> & ->) (-> & -> & -> & ->).
  repeat split.
Qed.

Lemma same_collection_refl w : same_collection w w.
Proof. reflexivity. Qed.

Lemma same_collection_trans w1 w2 w3 :
  same_collection w1 w2 -> same_collection w2 w3 -> same_collection w1 w3.
Proof. unfold same_collection. congruence. Qed.

Lemma same_collection_call {A} c (method : device -> A * device) :
  keeps same_collection (pcan_call c method).
Proof. apply keeps_pcan_call. reflexivity. Qed.

Lemma same_collection_error_text status :
  keeps same_collection (get_error_text status).
Proof. intros w. rewrite get_error_text_run. reflexivity. Qed.

Lemma same_collection_modify f :
  (forall g, is_tpms_collection_active (f g) = is_tpms_collection_active g) ->
  keeps same_collection (modify_globals f).
Proof. intros Hf w. apply Hf. Qed.

Lemma same_device_modify f : keeps same_device (modify_globals f).
Proof. intros w. split; reflexivity. Qed.

Lemma same_channel_modify_collection b :
  keeps same_channel (modify_globals (set_is_tpms_collection_active b)).
Proof. intros w. repeat split. Qed.

Lemma handle_stays_refl w : handle_stays_int_valued w w.
Proof. split; [tauto|reflexivity]. Qed.

Lemma handle_stays_trans w1 w2 w3 :
  handle_stays_int_valued w1 w2 -> handle_stays_int_valued w2 w3 ->
  handle_stays_int_valued w1 w3.
Proof.
  unfold handle_stays_int_valued. intros [H12 B12] [H23 B23].
  split; [tauto|congruence].
Qed.

Lemma handle_stays_call {A} c (method : device -> A * device) :
  keeps handle_stays_int_valued (pcan_call c method).
Proof. apply keeps_pcan_call. intros w d'. split; [tauto|reflexivity]. Qed.

Lemma handle_stays_error_text status :
  keeps handle_stays_int_valued (get_error_text status).
Proof.
  intros w. rewrite get_error_text_run. split; [tauto|reflexivity].
Qed.

Lemma handle_stays_modify f :
  (forall g, PCAN_HANDLE (f g) = PCAN_HANDLE g /\ BAUDRATE (f g) = BAUDRATE g) ->
  keeps handle_stays_int_valued (modify_globals f).
Proof.
  intros Hf w. destruct (Hf (globals w)) as [Hh Hb].
  split; cbn; [rewrite Hh; tauto|exact Hb].
Qed.

(** Only an integer can be formatted with [X]. *)
Lemma format_X_obj_int_valued width o s :
  format_X_obj width (value_or_self o) = Ok s -> int_valued o.
Proof. destruct o; cbn; intros H; try discriminate; exact I. Qed.

Lemma adds_init_calls_refl w : adds_init_calls w w.
Proof. exists []. split; [rewrite app_nil_r; reflexivity|constructor]. Qed.

Lemma adds_init_calls_trans w1 w2 w3 :
  adds_init_calls w1 w2 -> adds_init_calls w2 w3 -> adds_init_calls w1 w3.
Proof.
  intros (l1 & H1 & F1) (l2 & H2 & F2). exists (l1 ++ l2). split.
  - rewrite H2, H1, app_assoc. reflexivity.
  - apply Forall_app. split; assumption.
Qed.

Lemma adds_init_calls_modify f : keeps adds_init_calls (modify_globals f).
Proof.
  intros w. exists []. split; [cbn; rewrite app_nil_r; reflexivity|constructor].
Qed.

Lemma adds_init_calls_call {A} c (method : device -> A * device) :
  init_call c -> keeps adds_init_calls (pcan_call c method).
Proof.
  intros Hc. apply keeps_pcan_call. intros w d'. exists [c].
  split; [reflexivity|]. constructor; [exact Hc|constructor].
Qed.

Lemma adds_init_calls_error_text status :
  keeps adds_init_calls (get_error_text status).
Proof.
  intros w. rewrite get_error_text_run. exists [CGetErrorText status].
  split; [reflexivity|]. constructor; [exact I|constructor].
Qed.

End Frames.

Create HintDb frames.


Ltac keeps_step :=
  lazymatch goal with
  | |- keeps _ (let _ := _ in _) => cbv zeta
  | |- keeps _ (ret _) => apply keeps_ret; solve [eauto with frames]
  | |- keeps _ (raise _) => apply keeps_raise; solve [eauto with frames]
  | |- keeps _ (lift _) => apply keeps_lift; solve [eauto with frames]
  | |- keeps _ get_globals =>
      apply keeps_get_globals; solve [eauto with frames]
  | |- keeps _ (try_except _ _ _) =>
      apply keeps_try_except; [solve [eauto with frames] | | intros]
  | |- keeps _ (bind (lift _) _) =>
      apply keeps_bind_lift; [solve [eauto with frames] | intros]
  | |- keeps _ (bind _ _) =>
      apply keeps_bind; [solve [eauto with frames] | | intros]
  | |- keeps _ (if ?c then _ else _) => destruct c eqn:?
  | |- keeps _ (match ?x with _ => _ end) => destruct x eqn:?
  | |- keeps _ _ => solve [eauto with frames]
  end.

#[global] Hint Resolve same_globals_refl same_globals_trans same_globals_call
  same_globals_error_text : frames.

#[global] Hint Resolve same_device_refl same_device_trans same_channel_refl
  same_channel_trans same_collection_refl same_collection_trans
  same_collection_call same_collection_error_text same_device_modify
  same_channel_modify_collection : frames.

#[global] Hint Resolve handle_stays_refl handle_stays_trans handle_stays_call
  handle_stays_error_text : frames.

#[global] Hint Resolve adds_init_calls_refl adds_init_calls_trans adds_init_calls_modify
  adds_init_calls_error_text : frames.

(** ** Frame theorems *)

Section FrameTheorems.

Context {P : PCANBasic} {U : Unicode}.
Variable exc_str : exn -> string.

(** X1. Reading, writing and the status query change no global: the handle,
    the baud rate, the FD flag and both state flags are as before, whatever
    the device answers and whether the handler returns or raises. *)
Theorem read_write_status_keep_globals (w : World)
  (data : option (gmap string jvalue)) :
  globals (route read_message w).2 = globals w /\
  globals (route (write_message exc_str data) w).2 = globals w /\
  globals (route get_status w).2 = globals w.
Proof.
  split; [|split]; apply (keeps_route same_globals).
  - unfold read_message. repeat keeps_step.
  - unfold write_message. repeat keeps_step.
  - unfold get_status. repeat keeps_step.
Qed.

(** X2. The collection state and the channel are independent: the three
    collection routes call no device method and leave the handle, the baud
    rate, the FD flag and [pcan_initialized] alone, and the five channel
    routes leave [is_tpms_collection_active] alone. *)
Theorem collection_and_channel_independent (r : request) (w : World) :
  let w' := (serve exc_str r w).2 in
  match r with
  | GetTpmsStatus | StartTpms _ | StopTpms =>
      same_device w w' /\ same_channel w w'
  | Init _ | Release | Status | ReadMsg | WriteMsg _ =>
      same_collection w w'
  end.
Proof.
  unfold serve.
  destruct r as [|body| |body| | | |body]; cbn [handler_of].
  - split; [apply (keeps_route same_device)|apply (keeps_route same_channel)];
      eauto with frames; unfold get_tpms_status; repeat keeps_step.
  - split; [apply (keeps_route same_device)|apply (keeps_route same_channel)];
      eauto with frames; unfold start_tpms_collection; repeat keeps_step.
  - split; [apply (keeps_route same_device)|apply (keeps_route same_channel)];
      eauto with frames; unfold stop_tpms_collection; repeat keeps_step.
  - apply (keeps_route same_collection); eauto with frames.
    unfold init_can. repeat keeps_step;
      apply same_collection_modify; reflexivity.
  - apply (keeps_route same_collection); eauto with frames.
    unfold release_can. repeat keeps_step.
    apply same_collection_modify; reflexivity.
  - apply (keeps_route same_collection); eauto with frames.
    unfold get_status. repeat keeps_step.
  - apply (keeps_route same_collection); eauto with frames.
    unfold read_message. repeat keeps_step.
  - apply (keeps_route same_collection); eauto with frames.
    unfold write_message. repeat keeps_step.
Qed.

Lemma serve_handle_stays (r : request) (w : World) :
  handle_stays_int_valued w (serve exc_str r w).2.
Proof.
  unfold serve. apply (keeps_route handle_stays_int_valued).
  destruct r as [|body| |body| | | |body]; cbn [handler_of].
  - unfold get_tpms_status. repeat keeps_step.
  - unfold start_tpms_collection. repeat keeps_step.
    apply handle_stays_modify. intros ?. split; reflexivity.
  - unfold stop_tpms_collection. repeat keeps_step.
    apply handle_stays_modify. intros ?. split; reflexivity.
  - unfold init_can. repeat keeps_step;
      try (apply handle_stays_modify; intros ?; split; reflexivity).
    intros w0. split; [|reflexivity]. intros _. cbn.
    eapply format_X_obj_int_valued. eassumption.
  - unfold release_can. repeat keeps_step.
    apply handle_stays_modify. intros ?. split; reflexivity.
  - unfold get_status. repeat keeps_step.
  - unfold read_message. repeat keeps_step.
  - unfold write_message. repeat keeps_step.
Qed.

(** X3. Whatever requests arrive, in whatever order and whatever the device
    answers, [PCAN_HANDLE] always holds an integer or a ctypes integer (the
    handlers can hand it to the vendor methods) and [BAUDRATE] keeps the
    value the module was loaded with. *)
Theorem handle_always_int_valued (rs : list request) (d : device) :
  let w := serve_all exc_str rs (mkWorld initial_globals d []) in
  int_valued (PCAN_HANDLE (globals w)) /\
  BAUDRATE (globals w) = CInt PCAN_BAUD_500K.
Proof.
  cbv zeta.
  assert (Hgen : forall rs w,
    int_valued (PCAN_HANDLE (globals w)) ->
    int_valued (PCAN_HANDLE (globals (serve_all exc_str rs w))) /\
    BAUDRATE (globals (serve_all exc_str rs w)) = BAUDRATE (globals w)).
  { clear rs. induction rs as [|r rest IH]; intros w Hw; cbn [serve_all].
    - split; [exact Hw|reflexivity].
    - destruct (serve_handle_stays r w) as [Hstay Hbaud].
      destruct (IH (serve exc_str r w).2 (Hstay Hw)) as [Hh Hb].
      split; [exact Hh|congruence]. }
  apply (Hgen rs (mkWorld initial_globals d [])). exact I.
Qed.

End FrameTheorems.

(** ** Releasing the channel *)

Section Release.

Context {P : PCANBasic} {U : Unicode}.


(** X5. The exit hook releases only a channel marked initialized, clears the
    flag whatever the device answers, and is idempotent: run a second time
    it calls nothing and changes nothing. *)
Theorem release_hardware_on_exit_once (w : World) (h : Z) :
  c_arg (PCAN_HANDLE (globals w)) = Ok h ->
  let w1 := (release_hardware_on_exit w).2 in
  (pcan_initialized (globals w) = false -> w1 = w) /\
  (pcan_initialized (globals w) = true ->
   w1 = mkWorld (set_pcan_initialized false (globals w))
                (pcan_Uninitialize h (dev w)).2
                (calls w ++ [CUninitialize h])) /\
  pcan_initialized (globals w1) = false /\
  release_hardware_on_exit w1 = (Ok tt, w1).
Proof.
  intros Hh.
  unfold release_hardware_on_exit, bind, get_globals, lift, pcan_call,
    modify_globals, ret.
  cbn. destruct (pcan_initialized (globals w)) eqn:Hinit; cbn.
  - rewrite Hh. cbn.
    destruct (pcan_Uninitialize h (dev w)) as [st d1]. cbn.
    repeat split; intros; try discriminate; reflexivity.
  - rewrite ?Hinit. repeat split; intros; try discriminate; reflexivity.
Qed.

(** X23. Releasing twice: when the device accepts both [Uninitialize]
    calls, both requests are answered 200 and the channel stays marked not
    initialized; the second release is sent to the device like the first. *)
Theorem release_can_twice (w : World) (h : Z) (d1 d2 : device) :
  c_arg (PCAN_HANDLE (globals w)) = Ok h ->
  pcan_Uninitialize h (dev w) = (PCAN_ERROR_OK, d1) ->
  pcan_Uninitialize h d1 = (PCAN_ERROR_OK, d2) ->
  let released :=
    Json 200 [("success", JBool true); ("message", JStr "Channel released.")] in
  (route release_can w).1 = released /\
  route release_can (route release_can w).2 =
  (released,
   mkWorld (set_pcan_initialized false (globals w)) d2
           (calls w ++ [CUninitialize h; CUninitialize h])).
Proof.
  intros Hh H1 H2 released. subst released.
  unfold route, release_can, bind, get_globals, lift, pcan_call,
    modify_globals, ret.
  cbn. rewrite Hh. cbn. rewrite H1. cbn. rewrite Z.eqb_refl. cbn.
  rewrite Hh. cbn. rewrite H2. cbn. rewrite Z.eqb_refl. cbn.
  rewrite <- app_assoc. split; reflexivity.
Qed.

End Release.


Lemma release_hardware_on_exit_once_witness :
  pcan_initialized
    (globals (release_hardware_on_exit
                (with_initialized true (start_world idle_device))).2) = false.
Proof.
  refine (proj1 (proj2 (proj2
    (release_hardware_on_exit_once
       (with_initialized true (start_world idle_device)) 0x51 _))));
    reflexivity.
Defined.

(** ** Reading *)

Section Reading.

Context {P : PCANBasic} {U : Unicode}.

Lemma read_items_take (m : can_msg) (n : nat) : forall i,
  (i + n <= length (msg_DATA m))%nat ->
  read_items m (seq i n) = Ok (take n (drop i (msg_DATA m))).
Proof.
  induction n as [|n IH]; intros i Hlen; cbn [seq read_items].
  - reflexivity.
  - destruct (lookup_lt_is_Some_2 (msg_DATA m) i) as [x Hx]; [lia|].
    unfold get_DATA, py_getitem. rewrite Hx. cbn [rbind].
    rewrite IH by lia. cbn [rbind].
    rewrite (drop_S _ _ _ Hx). reflexivity.
Qed.

Lemma read_items_overrun (m : can_msg) (n : nat) : forall i,
  (i <= length (msg_DATA m))%nat ->
  (length (msg_DATA m) < i + n)%nat ->
  read_items m (seq i n) = Raise IndexError.
Proof.
  induction n as [|n IH]; intros i Hi Hlen; cbn [seq read_items].
  - lia.
  - unfold get_DATA, py_getitem.
    destruct (msg_DATA m !! i) as [x|] eqn:Hx; cbn [rbind]; [|reflexivity].
    apply lookup_lt_Some in Hx.
    rewrite IH by lia. reflexivity.
Qed.

Lemma read_data_take (m : can_msg) (data_len : Z) :
  (Z.to_nat data_len <= length (msg_DATA m))%nat ->
  read_data m data_len = Ok (take (Z.to_nat data_len) (msg_DATA m)).
Proof.
  intros H. unfold read_data. rewrite read_items_take by lia.
  rewrite drop_0. reflexivity.
Qed.

Lemma read_data_overrun (m : can_msg) (data_len : Z) :
  (length (msg_DATA m) < Z.to_nat data_len)%nat ->
  read_data m data_len = Raise IndexError.
Proof. intros H. unfold read_data. apply read_items_overrun; lia. Qed.


(** X7. A classic frame taken from the queue is answered with its first [LEN]
    data bytes.  The TPMS reading is attached when [LEN] is at least 7 and
    is [null] below; on a frame of bytes with [LEN] 7 or 8 it is never
    [null].  A [LEN] beyond the eight-byte buffer makes the read a server
    error, after the frame has left the queue. *)
Theorem read_message_classic_frame (w : World) (h : Z) (m : TPCANMsg.t)
  (t : TPCANTimestamp.t) (d1 : device) :
  c_arg (PCAN_HANDLE (globals w)) = Ok h ->
  truthy (IS_FD (globals w)) = false ->
  pcan_Read h (dev w) = (PCAN_ERROR_OK, m, t, d1) ->
  let n := Z.to_nat (TPCANMsg.LEN m) in
  let data_bytes := take n (TPCANMsg.DATA m) in
  ((n <= length (TPCANMsg.DATA m))%nat ->
   route read_message w =
   (frame_answer (Msg m) (TPCANMsg.LEN m) data_bytes
      (if 7 <=? TPCANMsg.LEN m then parse_sensor_data data_bytes else None)
      (Ts t),
    after_call w (CRead h) d1)) /\
  ((length (TPCANMsg.DATA m) < n)%nat ->
   route read_message w = (ServerError IndexError, after_call w (CRead h) d1)) /\
  ((n <= length (TPCANMsg.DATA m))%nat -> 7 <= TPCANMsg.LEN m ->
   Forall is_byte (TPCANMsg.DATA m) ->
   exists r, parse_sensor_data data_bytes = Some r).
Proof.
  intros Hh Hfd Hread n data_bytes.
  assert (Hrun : forall bytes,
    read_data (Msg m) (TPCANMsg.LEN m) = bytes ->
    route read_message w =
    match bytes with
    | Ok bs =>
        (frame_answer (Msg m) (TPCANMsg.LEN m) bs
           (if 7 <=? TPCANMsg.LEN m then parse_sensor_data bs else None)
           (Ts t),
         after_call w (CRead h) d1)
    | Raise e => (ServerError e, after_call w (CRead h) d1)
    end).
  { intros bytes Hb.
    unfold route, read_message, bind, get_globals, lift, pcan_call, ret.
    cbn. rewrite Hh. cbn. rewrite Hfd. cbn. rewrite Hread. cbn.
    rewrite QRCVEMPTY_eqb_OK, Z.eqb_refl. cbn. rewrite Hb.
    destruct bytes; reflexivity. }
  split; [|split].
  - intros Hn. rewrite (Hrun _ (read_data_take (Msg m) _ Hn)). reflexivity.
  - intros Hn. rewrite (Hrun _ (read_data_overrun (Msg m) _ Hn)). reflexivity.
  - intros Hn Hlen Hbytes.
    destruct (parse_sensor_data_none_iff_short_aux data_bytes) as [r Hr].
    + apply Forall_take. exact Hbytes.
    + unfold data_bytes. rewrite length_take. lia.
    + eauto.
Qed.


End Reading.


Lemma read_message_classic_frame_witness :
  route read_message (start_world ready_device) =
  (frame_answer (Msg tpms_frame) 8 [3; 1; 1; 0; 0x34; 0x21; 255; 0]
     (parse_sensor_data [3; 1; 1; 0; 0x34; 0x21; 255; 0]) (Ts frame_stamp),
   after_call (start_world ready_device) (CRead 0x51) ready_device).
Proof.
  refine (proj1 (read_message_classic_frame (start_world ready_device) 0x51
                   tpms_frame frame_stamp ready_device _ _ _) _);
    try reflexivity; simpl; lia.
Defined.


(** ** What [int] accepts is ASCII *)

Section AsciiText.

Import PyStr.

Ltac each_char c := destruct c as [[] [] [] [] [] [] [] []].

Lemma is_space_ascii c : is_space c = true -> is_ascii_char c = true.
Proof. each_char c; vm_compute; intros H; congruence. Qed.

Lemma hex_val_ascii c d : hex_val c = Some d -> is_ascii_char c = true.
Proof. each_char c; vm_compute; intros H; congruence. Qed.

Lemma skip_spaces_ascii s :
  is_ascii (skip_spaces s) = true -> is_ascii s = true.
Proof.
  induction s as [|c s IH]; cbn [skip_spaces]; [auto|].
  destruct (is_space c) eqn:Hc; [|auto].
  intros H. cbn [is_ascii]. rewrite (is_space_ascii c Hc), (IH H). reflexivity.
Qed.

Lemma scan_digits_ascii s : forall prev nd acc v nd' rest,
  scan_digits s prev nd acc = Some (v, nd', rest) ->
  is_ascii rest = true -> is_ascii s = true.
Proof.
  induction s as [|c s IH]; intros prev nd acc v nd' rest; cbn [scan_digits].
  - destruct prev; [discriminate|]. intros [= <- <- <-]. auto.
  - destruct (Ascii.eqb c "_") eqn:Hus.
    + apply Ascii.eqb_eq in Hus. subst c.
      destruct prev; [discriminate|].
      intros H Hr. cbn [is_ascii]. rewrite (IH _ _ _ _ _ _ H Hr). reflexivity.
    + destruct (hex_val c) as [d|] eqn:Hd.
      * intros H Hr. cbn [is_ascii].
        rewrite (hex_val_ascii c d Hd), (IH _ _ _ _ _ _ H Hr). reflexivity.
      * destruct prev; [discriminate|]. intros [= <- <- <-]. auto.
Qed.

Lemma strip_sign_ascii s1 :
  is_ascii (strip_sign s1).2 = true -> is_ascii s1 = true.
Proof.
  destruct s1 as [|c r]; [auto|]. each_char c; cbn; auto.
Qed.

Lemma strip_prefix_ascii s2 :
  is_ascii (strip_prefix s2) = true -> is_ascii s2 = true.
Proof.
  destruct s2 as [|c1 r1]; [auto|].
  each_char c1; cbn; auto.
  destruct r1 as [|c2 r2]; [auto|].
  each_char c2; cbn; auto;
    (destruct r2 as [|c3 r3]; [auto|]; each_char c3; cbn; auto).
Qed.

Lemma int_base16_staged s :
  int_base16 s =
  let s3 := strip_prefix (strip_sign (skip_spaces s)).2 in
  match s3 with
  | String "_"%char _ => None
  | _ =>
      match scan_digits s3 false 0 0 with
      | Some (v, nd, rest) =>
          match nd, skip_spaces rest with
          | S _, EmptyString =>
              Some (if (strip_sign (skip_spaces s)).1 then - v else v)
          | _, _ => None
          end
      | None => None
      end
  end.
Proof.
  unfold int_base16, strip_sign, strip_prefix.
  destruct (skip_spaces s) as [|c r]; [reflexivity|].
  each_char c; reflexivity.
Qed.

Lemma int_base16_ascii s n : int_base16 s = Some n -> is_ascii s = true.
Proof.
  rewrite int_base16_staged. cbv zeta.
  intros H. apply skip_spaces_ascii, strip_sign_ascii, strip_prefix_ascii.
  set (s3 := strip_prefix _) in *. clearbody s3.
  assert (Hscan : exists v nd rest,
    scan_digits s3 false 0 0 = Some (v, nd, rest) /\ skip_spaces rest = "").
  { destruct (scan_digits s3 false 0 0) as [[[v nd] rest]|] eqn:Hs.
    - exists v, nd, rest. split; [reflexivity|].
      destruct s3 as [|c r]; [|each_char c]; try discriminate H;
        destruct nd; try discriminate H;
        destruct (skip_spaces rest); try discriminate H; reflexivity.
    - destruct s3 as [|c r]; [|each_char c]; discriminate H. }
  destruct Hscan as (v & nd & rest & Hs & Hrest).
  apply (scan_digits_ascii _ _ _ _ _ _ _ Hs).
  apply skip_spaces_ascii. rewrite Hrest. reflexivity.
Qed.

End AsciiText.

(** ** Writing *)

Section Writing.

Context {P : PCANBasic} {U : Unicode}.
Variable exc_str : exn -> string.

Lemma py_int16_parsed s n :
  PyStr.int_base16 s = Some n -> py_int16 (JS (SStr s)) = Ok n.
Proof.
  intros H. unfold py_int16, int_text.
  rewrite (int_base16_ascii s n H), H. reflexivity.
Qed.

Lemma py_int16_rejected s :
  is_ascii s = true -> PyStr.int_base16 s = None ->
  py_int16 (JS (SStr s)) = Raise ValueError.
Proof.
  intros Ha H. unfold py_int16, int_text. rewrite Ha, H. reflexivity.
Qed.

Lemma msg_DATA_with_DATA m d : msg_DATA (with_DATA m d) = d.
Proof. destruct m; reflexivity. Qed.

Lemma with_DATA_twice m d d' : with_DATA (with_DATA m d) d' = with_DATA m d'.
Proof. destruct m; reflexivity. Qed.

Lemma with_DATA_same m : with_DATA m (msg_DATA m) = m.
Proof. destruct m as [[] | []]; reflexivity. Qed.


(** One integer too many: the store past the buffer raises. *)
Lemma fill_data_overflow (m : can_msg) (bytes : list Z) : forall pre old,
  (length old < length bytes)%nat ->
  fill_data (with_DATA m (pre ++ old)) (length pre) (SNum <$> bytes) =
  Raise IndexError.
Proof.
  induction bytes as [|b bs IH]; intros pre old Hlen; cbn [fmap list_fmap fill_data].
  - cbn in Hlen. lia.
  - unfold set_DATA. rewrite msg_DATA_with_DATA.
    destruct old as [|o os].
    + rewrite app_nil_r. rewrite Nat.ltb_irrefl. reflexivity.
    + assert (Hlt : (length pre <? length (pre ++ o :: os))%nat = true).
      { apply Nat.ltb_lt. rewrite length_app. cbn. lia. }
      rewrite Hlt. cbn [c_ubyte_of_scalar rbind].
      rewrite with_DATA_twice.
      replace (<[length pre := c_ubyte b]> (pre ++ o :: os))
        with ((pre ++ [c_ubyte b]) ++ os).
      2:{ rewrite insert_app_r_alt by lia. rewrite Nat.sub_diag. cbn.
          rewrite <- app_assoc. reflexivity. }
      replace (S (length pre)) with (length (pre ++ [c_ubyte b]))
        by (rewrite length_app; cbn; lia).
      apply IH. cbn in Hlen. lia.
Qed.


Lemma fill_data_too_long (m : can_msg) (bytes : list Z) :
  (length (msg_DATA m) < length bytes)%nat ->
  fill_data m 0 (SNum <$> bytes) = Raise IndexError.
Proof.
  intros Hlen.
  pose proof (fill_data_overflow m bytes [] (msg_DATA m) Hlen) as H.
  cbn [app length] in H. rewrite with_DATA_same in H. exact H.
Qed.

(** Until the message is complete [write_message] only computes: when the
    preparation raises, the world is as before. *)
Lemma write_message_rejected (w : World) (d : gmap string jvalue) (e : exn) :
  truthy_body (Some d) = true ->
  prepare_frame (globals w) d = Raise e ->
  route (write_message exc_str (Some d)) w =
  (if caught_by_write e then
     Json 400 [("success", JBool false);
               ("error", JStr ("Invalid request format: " +:+ exc_str e))]
   else ServerError e,
   w).
Proof.
  intros Hbody Hprep.
  unfold route, write_message. rewrite Hbody.
  unfold try_except, bind, get_globals, lift, ret.
  unfold prepare_frame in Hprep. cbv zeta in *.
  destruct (py_len (dict_get d "data" (JArr []))) as [n|e1];
    cbn [rbind] in Hprep; [|injection Hprep as ->; destruct e; reflexivity].
  destruct (match d !! "id" with
            | Some x => py_int16 x
            | None => Raise KeyError
            end) as [id|e1];
    cbn [rbind] in Hprep; [|injection Hprep as ->; destruct e; reflexivity].
  fold (write_header (globals w) d n id).
  destruct (fill_data (write_header (globals w) d n id) 0
              (py_items (dict_get d "data" (JArr [])))) as [msg|e1];
    cbn [rbind] in Hprep; [|injection Hprep as ->; destruct e; reflexivity].
  destruct (c_arg (PCAN_HANDLE (globals w))) as [h|e1];
    cbn [rbind] in Hprep; [|injection Hprep as ->; destruct e; reflexivity].
  destruct (truthy (IS_FD (globals w))).
  - destruct (as_MsgFD msg) as [f|e1]; cbn [rbind] in Hprep;
      [discriminate|injection Hprep as ->; destruct e; reflexivity].
  - destruct (as_Msg msg) as [c|e1]; cbn [rbind] in Hprep;
      [discriminate|injection Hprep as ->; destruct e; reflexivity].
Qed.


Lemma write_header_classic (g : Globals) (d : gmap string jvalue) (n id : Z) :
  truthy (IS_FD g) = false ->
  write_header g d n id =
  Msg (TPCANMsg.mk (c_uint id)
         (requested_msgtype
            (truthy_jvalue (dict_get d "extended" (JS (SBool false))))
            (truthy_jvalue (dict_get d "rtr" (JS (SBool false)))))
         (c_ubyte n) (replicate TPCANMsg.DATA_SIZE 0)).
Proof.
  intros Hfd. unfold write_header, requested_msgtype. rewrite Hfd.
  destruct (truthy_jvalue (dict_get d "extended" (JS (SBool false))));
    destruct (truthy_jvalue (dict_get d "rtr" (JS (SBool false))));
    reflexivity.
Qed.


(** X10. A classic write with more than eight integers as data, and an id that
    parses, is a server error: the ninth store raises [IndexError], which
    the handler does not catch.  Nothing is sent and nothing changes. *)
Theorem write_message_overlong (w : World) (d : gmap string jvalue)
  (id_text : string) (id : Z) (bytes : list Z) :
  truthy (IS_FD (globals w)) = false ->
  d !! "id" = Some (JS (SStr id_text)) ->
  PyStr.int_base16 id_text = Some id ->
  d !! "data" = Some (JArr (SNum <$> bytes)) ->
  (8 < length bytes)%nat ->
  route (write_message exc_str (Some d)) w = (ServerError IndexError, w).
Proof.
  intros Hfd Hid Hparse Hdata Hlen.
  rewrite (write_message_rejected w d IndexError);
    [reflexivity|exact (truthy_body_lookup d _ _ Hid)|].
  unfold prepare_frame. cbv zeta. unfold dict_get at 1 2.
  rewrite Hdata, Hid.
  cbn [from_option Datatypes.id py_len py_items rbind].
  rewrite (py_int16_parsed _ _ Hparse).
  cbn [rbind]. rewrite write_header_classic by exact Hfd.
  rewrite fill_data_too_long by (cbn; lia).
  reflexivity.
Qed.

(** X11. Requests the handler turns down with status 400, the world
    unchanged: a null body or an empty object; no ["id"]; an ["id"] that is
    not a string; an ["id"] in ASCII that is not a hexadecimal number. *)
Theorem write_message_bad_request (w : World) (d : gmap string jvalue) (n : Z) :
  let bad e :=
    (Json 400 [("success", JBool false);
               ("error", JStr ("Invalid request format: " +:+ exc_str e))],
     w) in
  route (write_message exc_str None) w =
    (Json 400 [("success", JBool false);
               ("error", JStr "Invalid JSON body.")], w) /\
  route (write_message exc_str (Some ∅)) w =
    (Json 400 [("success", JBool false);
               ("error", JStr "Invalid JSON body.")], w) /\
  (truthy_body (Some d) = true ->
   py_len (dict_get d "data" (JArr [])) = Ok n ->
   (d !! "id" = None ->
    route (write_message exc_str (Some d)) w = bad KeyError) /\
   (forall x, d !! "id" = Some x -> (forall s, x <> JS (SStr s)) ->
    route (write_message exc_str (Some d)) w = bad TypeError) /\
   (forall s, d !! "id" = Some (JS (SStr s)) ->
    is_ascii s = true -> PyStr.int_base16 s = None ->
    route (write_message exc_str (Some d)) w = bad ValueError)).
Proof.
  intros bad. split; [reflexivity|]. split; [reflexivity|].
  intros Hbody Hn.
  assert (Hrej : forall e,
    match d !! "id" with
    | Some x => py_int16 x
    | None => Raise KeyError
    end = Raise e ->
    prepare_frame (globals w) d = Raise e).
  { intros e He. unfold prepare_frame. cbv zeta. rewrite Hn. cbn [rbind].
    rewrite He. reflexivity. }
  split; [|split].
  - intros Hid. rewrite (write_message_rejected w d KeyError Hbody);
      [reflexivity|]. apply Hrej. rewrite Hid. reflexivity.
  - intros x Hid Hx. rewrite (write_message_rejected w d TypeError Hbody);
      [reflexivity|]. apply Hrej. rewrite Hid.
    destruct x as [[| | | |s| |]|l]; try reflexivity.
    exfalso. apply (Hx s). reflexivity.
  - intros s Hid Ha Hs. rewrite (write_message_rejected w d ValueError Hbody);
      [reflexivity|]. apply Hrej. rewrite Hid.
    apply py_int16_rejected; assumption.
Qed.




(** X22. A data item that is not an integer (a string, a float or [null])
    among the items that fit the buffer of a classic write, after an id
    that parses, is turned down with status 400: storing it raises
    [TypeError], which the handler catches.  Nothing is sent. *)
Theorem write_message_non_integer_item (w : World) (d : gmap string jvalue)
  (id_text : string) (id : Z) (bytes : list Z) (item : scalar)
  (rest : list scalar) :
  truthy (IS_FD (globals w)) = false ->
  d !! "id" = Some (JS (SStr id_text)) ->
  PyStr.int_base16 id_text = Some id ->
  d !! "data" = Some (JArr ((SNum <$> bytes) ++ item :: rest)) ->
  (length bytes < 8)%nat ->
  c_ubyte_of_scalar item = Raise TypeError ->
  route (write_message exc_str (Some d)) w =
  (Json 400 [("success", JBool false);
             ("error", JStr ("Invalid request format: " +:+ exc_str TypeError))],
   w).
Proof.
  intros Hfd Hid Hparse Hdata Hlen Hitem.
  rewrite (write_message_rejected w d TypeError);
    [reflexivity|exact (truthy_body_lookup d _ _ Hid)|].
  unfold prepare_frame. cbv zeta. unfold dict_get at 1 2.
  rewrite Hdata, Hid.
  cbn [from_option Datatypes.id py_len py_items rbind].
  rewrite (py_int16_parsed _ _ Hparse). cbn [rbind].
  rewrite write_header_classic by exact Hfd.
  set (m := Msg _).
  assert (Hm : length (msg_DATA m) = 8%nat) by reflexivity.
  clearbody m.
  assert (Hfill : forall pre old,
    (length bytes < length old)%nat ->
    fill_data (with_DATA m (pre ++ old)) (length pre)
              ((SNum <$> bytes) ++ item :: rest) = Raise TypeError).
  { clear Hdata Hlen. induction bytes as [|b bs IH]; intros pre old Hold.
    - cbn [fmap list_fmap app fill_data]. unfold set_DATA.
      rewrite msg_DATA_with_DATA.
      assert (Hlt : (length pre <? length (pre ++ old))%nat = true)
        by (apply Nat.ltb_lt; rewrite length_app; cbn in Hold; lia).
      rewrite Hlt, Hitem. reflexivity.
    - destruct old as [|o os]; [cbn in Hold; lia|].
      cbn [fmap list_fmap app fill_data]. unfold set_DATA.
      rewrite msg_DATA_with_DATA.
      assert (Hlt : (length pre <? length (pre ++ o :: os))%nat = true)
        by (apply Nat.ltb_lt; rewrite length_app; cbn; lia).
      rewrite Hlt. cbn [c_ubyte_of_scalar rbind].
      rewrite with_DATA_twice.
      replace (<[length pre := c_ubyte b]> (pre ++ o :: os))
        with ((pre ++ [c_ubyte b]) ++ os).
      2:{ rewrite insert_app_r_alt by lia. rewrite Nat.sub_diag. cbn.
          rewrite <- app_assoc. reflexivity. }
      replace (S (length pre)) with (length (pre ++ [c_ubyte b]))
        by (rewrite length_app; cbn; lia).
      apply IH. cbn in Hold. lia. }
  pose proof (Hfill [] (msg_DATA m)) as H0.
  cbn [app length] in H0. rewrite with_DATA_same in H0.
  rewrite H0 by (rewrite Hm; lia). reflexivity.
Qed.

End Writing.


(** A refused write whose error text is not UTF-8: the frame has been
    handed to the device, and the answer is 400. *)
Lemma write_refused_undecodable_text :
  route (write_message no_exc_str (Some write_request))
        (start_world garbled_device) =
  (Json 400 [("success", JBool false);
             ("error", JStr "Invalid request format: ")],
   mkWorld (P := scripted) (globals (start_world garbled_device))
     garbled_device
     [CWrite 0x51 (TPCANMsg.mk 0x100 0 8 [1; 2; 3; 4; 5; 6; 7; 8]);
      CGetErrorText 0x4000000]).
Proof. vm_compute. reflexivity. Qed.

Lemma write_message_overlong_witness :
  route (write_message no_exc_str (Some long_write_request))
        (start_world ready_device) =
  (ServerError IndexError, start_world ready_device).
Proof.
  refine (write_message_overlong no_exc_str (start_world ready_device)
            long_write_request "1FF" 0x1FF [0; 1; 2; 3; 4; 5; 6; 7; 8]
            _ _ _ _ _);
    try (vm_compute; reflexivity); simpl; lia.
Defined.

(** ** Initializing *)

Section Initializing.

Context {P : PCANBasic} {U : Unicode}.

(** The outcome of [init_can] in classic mode, once the request is resolved
    to integers. *)
Lemma init_can_run (w : World) (data : option (gmap string scalar))
  (hv bv : Z) :
  let g := globals w in
  let g1 := set_IS_FD (resolved_is_fd g data) g in
  truthy (resolved_is_fd g data) = false ->
  value_or_self (resolved_handle g data) = PyInt hv ->
  value_or_self (resolved_baudrate g data) = PyInt bv ->
  route (init_can data) w =
  (let (status, d1) := pcan_Initialize hv bv (dev w) in
   if status =? PCAN_ERROR_OK then
     (Json 200
        [("success", JBool true);
         ("message",
          JStr ("Channel " +:+ PyStr.format_X 2 hv +:+
                "h initialized successfully at the specified baudrate."))],
      mkWorld
        (set_pcan_initialized true
           (set_PCAN_HANDLE (resolved_handle g data) g1))
        d1 (calls w ++ [CInitialize hv bv]))
   else
     (error_answer status d1,
      mkWorld (set_pcan_initialized false g1)
        (pcan_GetErrorText status d1).2
        (calls w ++ [CInitialize hv bv; CGetErrorText status]))).
Proof.
  destruct w as [[ph br fd ini act] dv cl].
  intros g g1 Hfd Hh Hb.
  set (w := mkWorld (mkGlobals ph br fd ini act) dv cl) in *.
  unfold route. rewrite (init_can_resolved w data hv bv Hfd Hh Hb).
  unfold bind, modify_globals, pcan_call, ret. cbn.
  destruct (pcan_Initialize hv bv dv) as [st d1]. cbn.
  destruct (st =? PCAN_ERROR_OK); [reflexivity|].
  rewrite get_error_text_run. cbn. unfold after_call, error_answer. cbn.
  rewrite <- app_assoc. destruct (error_text st d1); reflexivity.
Qed.

(** The first call of a read. *)
Lemma read_message_first_call (w : World) (h : Z) :
  c_arg (PCAN_HANDLE (globals w)) = Ok h ->
  exists rest,
    calls (route read_message w).2 =
    calls w ++ read_call (globals w) h :: rest.
Proof.
  intros Hh.
  unfold route, read_message, read_call, get_error_text, bind, get_globals,
    lift, pcan_call, ret.
  cbn. rewrite Hh. cbn.
  destruct (truthy (IS_FD (globals w))).
  - destruct (pcan_ReadFD h (dev w)) as [[[st m] t] d']. cbn.
    repeat (case_match; simplify_eq; cbn in * );
      rewrite <- ?app_assoc; eauto.
  - destruct (pcan_Read h (dev w)) as [[[st m] t] d']. cbn.
    repeat (case_match; simplify_eq; cbn in * );
      rewrite <- ?app_assoc; eauto.
Qed.

Lemma resolved_default_handle (g : Globals) (d : gmap string scalar) :
  truthy_body (Some d) = true ->
  falls_back g (d !! "channel") ->
  resolved_handle g (Some d) = CInt PCAN_USBBUS1.
Proof.
  intros Hbody Hfb. unfold resolved_handle. rewrite Hbody.
  unfold dict_get, globals_get, falls_back in *.
  destruct (d !! "channel") as [[| | | |name| |]|]; cbn; try reflexivity;
    [rewrite Hfb; reflexivity|destruct Hfb..].
Qed.

Lemma resolved_default_baudrate (g : Globals) (d : gmap string scalar) :
  truthy_body (Some d) = true ->
  falls_back g (d !! "baudrate") ->
  resolved_baudrate g (Some d) = CInt PCAN_BAUD_500K.
Proof.
  intros Hbody Hfb. unfold resolved_baudrate. rewrite Hbody.
  unfold dict_get, globals_get, falls_back in *.
  destruct (d !! "baudrate") as [[| | | |name| |]|]; cbn; try reflexivity;
    [rewrite Hfb; reflexivity|destruct Hfb..].
Qed.

(** X12. A non-empty classic request whose channel and baud rate are each
    absent, a number, a boolean or null, or a string that is no name of the
    module, is served with the defaults: the device is asked to initialize
    [PCAN_USBBUS1] at [PCAN_BAUD_500K], and on success that handle is
    recorded. *)
Theorem init_can_falls_back_to_defaults (w : World) (d : gmap string scalar) :
  truthy_body (Some d) = true ->
  truthy (dict_get d "is_fd" (SBool false)) = false ->
  falls_back (globals w) (d !! "channel") ->
  falls_back (globals w) (d !! "baudrate") ->
  let w' := (route (init_can (Some d)) w).2 in
  let status := (pcan_Initialize PCAN_USBBUS1 PCAN_BAUD_500K (dev w)).1 in
  calls w' =
    calls w ++ CInitialize PCAN_USBBUS1 PCAN_BAUD_500K ::
    (if status =? PCAN_ERROR_OK then [] else [CGetErrorText status]) /\
  (status = PCAN_ERROR_OK ->
   PCAN_HANDLE (globals w') = CInt PCAN_USBBUS1 /\
   pcan_initialized (globals w') = true).
Proof.
  intros Hbody Hfd Hch Hbd w' status. subst w' status.
  rewrite (init_can_run w (Some d) PCAN_USBBUS1 PCAN_BAUD_500K).
  - rewrite (resolved_default_handle _ _ Hbody Hch).
    destruct (pcan_Initialize PCAN_USBBUS1 PCAN_BAUD_500K (dev w)) as [st d1].
    cbn [fst snd]. destruct (st =? PCAN_ERROR_OK) eqn:Hst; cbn.
    + split; [reflexivity|]. intros _. split; reflexivity.
    + split; [reflexivity|]. intros ->. rewrite Z.eqb_refl in Hst.
      discriminate.
  - unfold resolved_is_fd. rewrite Hbody. exact Hfd.
  - rewrite (resolved_default_handle _ _ Hbody Hch). reflexivity.
  - rewrite (resolved_default_baudrate _ _ Hbody Hbd). reflexivity.
Qed.

(** X13. The FD flag is sticky.  After a request with a true ["is_fd"]
    (and a channel and a baud rate Python can hash) every request with a
    null body, or with an empty object, is answered 501 again without
    touching anything, and the next read goes to [ReadFD]. *)
Theorem init_can_fd_is_sticky (w : World) (d : gmap string scalar)
  (v : scalar) :
  d !! "is_fd" = Some v -> truthy v = true -> hashable_names d ->
  let w1 := (route (init_can (Some d)) w).2 in
  (forall data, truthy_body data = false ->
     route (init_can data) w1 = (fd_not_implemented, w1)) /\
  (forall h, c_arg (PCAN_HANDLE (globals w)) = Ok h ->
     exists rest,
       calls (route read_message w1).2 = calls w ++ CReadFD h :: rest).
Proof.
  intros Hfd Hv [Hc Hb].
  pose proof (truthy_body_lookup d _ _ Hfd) as Hbody.
  assert (Hfdv : dict_get d "is_fd" (SBool false) = v).
  { unfold dict_get. rewrite Hfd. reflexivity. }
  assert (Hw1 : (route (init_can (Some d)) w).2 =
                with_globals (set_IS_FD v (globals w)) w).
  { unfold route, init_can, bind, get_globals, modify_globals, ret, lift.
    rewrite Hbody, Hfdv.
    destruct (dict_get d "channel" (SStr "PCAN_USBBUS1")); try discriminate Hc;
      destruct (dict_get d "baudrate" (SStr "PCAN_BAUD_500K"));
      try discriminate Hb; cbn; rewrite Hv; reflexivity. }
  cbv zeta. rewrite Hw1. split.
  - intros data Hdata.
    unfold route, init_can, bind, get_globals, modify_globals, ret.
    destruct data as [d'|]; [rewrite Hdata|]; cbn; rewrite Hv; reflexivity.
  - intros h Hh.
    destruct (read_message_first_call
                (with_globals (set_IS_FD v (globals w)) w) h Hh)
      as [rest Hrest].
    exists rest. rewrite Hrest. unfold read_call. cbn. rewrite Hv.
    reflexivity.
Qed.

(** X14. A name bound to something that is not an integer makes a classic
    initialize a server error: formatting the value raises, [ValueError]
    for a string or a float and [TypeError] for any other object.  The
    device is not called; [IS_FD] has already been assigned, both lookups
    having passed. *)
Theorem init_can_non_integer_name (w : World) (d : gmap string scalar)
  (e : exn) :
  truthy_body (Some d) = true ->
  truthy (dict_get d "is_fd" (SBool false)) = false ->
  hashable_names d ->
  format_X_obj 2 (value_or_self (resolved_handle (globals w) (Some d))) =
    Raise e ->
  route (init_can (Some d)) w =
  (ServerError e,
   with_globals (set_IS_FD (dict_get d "is_fd" (SBool false)) (globals w)) w).
Proof.
  intros Hbody Hfd [Hc Hb] Hh.
  unfold resolved_handle in Hh. rewrite Hbody in Hh.
  unfold route, init_can, bind, get_globals, modify_globals, ret, lift.
  rewrite Hbody.
  destruct (globals_get (globals w) (dict_get d "channel" _) _) as [ho|e1]
    eqn:Hho.
  2:{ destruct (dict_get d "channel" (SStr "PCAN_USBBUS1"));
        discriminate. }
  destruct (globals_get (globals w) (dict_get d "baudrate" _) _) as [bo|e1]
    eqn:Hbo.
  2:{ destruct (dict_get d "baudrate" (SStr "PCAN_BAUD_500K"));
        discriminate. }
  cbn in Hh |- *. rewrite Hfd, Hh. reflexivity.
Qed.

(** X15. [init_can] never releases: whatever the request and whether or not the
    channel is already initialized, the only device methods it calls are
    [Initialize] and [GetErrorText]. *)
Theorem init_can_never_releases (w : World)
  (data : option (gmap string scalar)) :
  exists l,
    calls (route (init_can data) w).2 = calls w ++ l /\ Forall init_call l.
Proof.
  apply (keeps_route adds_init_calls).
  unfold init_can. repeat keeps_step.
  apply adds_init_calls_call. exact I.
Qed.

(** X16. The handle a successful initialize records is the one the next read
    goes to. *)
Theorem init_can_then_read (w : World) (data : option (gmap string scalar))
  (hv bv : Z) :
  truthy (resolved_is_fd (globals w) data) = false ->
  value_or_self (resolved_handle (globals w) data) = PyInt hv ->
  value_or_self (resolved_baudrate (globals w) data) = PyInt bv ->
  (pcan_Initialize hv bv (dev w)).1 = PCAN_ERROR_OK ->
  let w1 := (route (init_can data) w).2 in
  pcan_initialized (globals w1) = true /\
  exists rest,
    calls (route read_message w1).2 =
    calls w ++ CInitialize hv bv :: CRead hv :: rest.
Proof.
  intros Hfd Hh Hb Hst.
  cbv zeta. rewrite (init_can_run w data hv bv Hfd Hh Hb).
  destruct (pcan_Initialize hv bv (dev w)) as [st d1]. cbn in Hst. subst st.
  rewrite Z.eqb_refl. cbn [snd globals].
  split; [reflexivity|].
  assert (Harg : c_arg (resolved_handle (globals w) data) = Ok hv).
  { destruct (resolved_handle (globals w) data); cbn in Hh |- *;
      congruence. }
  unfold route, read_message, get_error_text, bind, get_globals, lift,
    pcan_call, ret.
  cbn. rewrite Harg. cbn. rewrite Hfd. cbn.
  destruct (pcan_Read hv d1) as [[[st m] t] d2]. cbn.
  repeat (case_match; simplify_eq; cbn in * );
    rewrite <- ?app_assoc; cbn; eauto.
Qed.

End Initializing.

Lemma init_can_falls_back_to_defaults_witness :
  calls (route (init_can (Some {[ "channel" := SStr "NO_SUCH_CHANNEL";
                                  "baudrate" := SNum 500 ]}))
               (start_world ready_device)).2 =
  [CInitialize 0x51 0x1C].
Proof.
  refine (proj1 (init_can_falls_back_to_defaults (start_world ready_device)
                   {[ "channel" := SStr "NO_SUCH_CHANNEL";
                      "baudrate" := SNum 500 ]} _ _ _ _));
    vm_compute; try reflexivity; exact I.
Defined.

Lemma init_can_fd_is_sticky_witness :
  exists rest,
    calls (route read_message
             (route (init_can (Some {[ "is_fd" := SBool true ]}))
                    (start_world ready_device)).2).2 =
    calls (start_world ready_device) ++ CReadFD 0x51 :: rest.
Proof.
  refine (proj2 (init_can_fd_is_sticky (start_world ready_device)
                   {[ "is_fd" := SBool true ]} (SBool true) _ _ _) 0x51 _).
  - vm_compute. reflexivity.
  - reflexivity.
  - split; vm_compute; reflexivity.
  - reflexivity.
Defined.

Lemma init_can_non_integer_name_witness :
  route (init_can (Some {[ "channel" := SStr "pcan" ]}))
        (start_world ready_device) =
  (ServerError TypeError, start_world ready_device).
Proof.
  refine (init_can_non_integer_name (start_world ready_device)
            {[ "channel" := SStr "pcan" ]} TypeError _ _ _ _);
    try split; vm_compute; reflexivity.
Defined.

Lemma init_can_then_read_witness :
  pcan_initialized
    (globals (route (init_can (Some {[ "channel" := SStr "PCAN_USBBUS2" ]}))
                    (start_world ready_device)).2) = true /\
  exists rest,
    calls (route read_message
             (route (init_can (Some {[ "channel" := SStr "PCAN_USBBUS2" ]}))
                    (start_world ready_device)).2).2 =
    calls (start_world ready_device)
    ++ CInitialize 0x52 0x1C :: CRead 0x52 :: rest.
Proof.
  apply (init_can_then_read (start_world ready_device)
           (Some {[ "channel" := SStr "PCAN_USBBUS2" ]}) 0x52 0x1C);
    vm_compute; reflexivity.
Defined.

(** ** Hexadecimal text *)

Section HexText.

Import PyStr.

Lemma digit_cases d :
  0 <= d < 16 ->
  d = 0 \/ d = 1 \/ d = 2 \/ d = 3 \/ d = 4 \/ d = 5 \/ d = 6 \/ d = 7 \/
  d = 8 \/ d = 9 \/ d = 10 \/ d = 11 \/ d = 12 \/ d = 13 \/ d = 14 \/ d = 15.
Proof. lia. Qed.

Ltac each_digit H :=
  apply digit_cases in H;
  repeat (destruct H as [H|H]; [subst|]); [..|subst].

Lemma hex_val_hex_digit d : 0 <= d < 16 -> hex_val (hex_digit d) = Some d.
Proof. intros H. each_digit H; reflexivity. Qed.

Lemma append_cons c (s1 s2 : string) :
  String c s1 +:+ s2 = String c (s1 +:+ s2).
Proof. reflexivity. Qed.

Lemma append_nil_r (s : string) : s +:+ "" = s.
Proof.
  induction s as [|c s IH]; [reflexivity|].
  rewrite append_cons, IH. reflexivity.
Qed.

Lemma append_assoc (s1 s2 s3 : string) :
  (s1 +:+ s2) +:+ s3 = s1 +:+ (s2 +:+ s3).
Proof.
  induction s1 as [|c s1 IH]; [reflexivity|].
  rewrite !append_cons, IH. reflexivity.
Qed.


Lemma hex_value_app s1 s2 acc :
  hex_value (s1 +:+ s2) acc = hex_value s2 (hex_value s1 acc).
Proof.
  revert acc. induction s1 as [|c s1 IH]; intros acc; [reflexivity|].
  rewrite append_cons. cbn [hex_value]. apply IH.
Qed.

Lemma all_hex_app s1 s2 : all_hex s1 -> all_hex s2 -> all_hex (s1 +:+ s2).
Proof.
  induction s1 as [|c s1 IH]; [intros _ H2; exact H2|].
  rewrite append_cons. cbn [all_hex]. intros [Hc H1] H2.
  split; [exact Hc|apply IH; assumption].
Qed.

Lemma all_hex_zeros k : all_hex (zeros k).
Proof.
  induction k as [|k IH]; cbn; [exact I|].
  split; [exists 0; split; [lia|reflexivity]|exact IH].
Qed.

Lemma hex_value_zeros k : hex_value (zeros k) 0 = 0.
Proof. induction k as [|k IH]; cbn; [reflexivity|exact IH]. Qed.

(** The digit loop reads a string of digits to its end. *)
Lemma scan_digits_hex s : forall prev nd acc,
  all_hex s -> (s = "" -> prev = false) ->
  scan_digits s prev nd acc =
  Some (hex_value s acc, (nd + String.length s)%nat, "").
Proof.
  induction s as [|c s IH]; intros prev nd acc Hs Hprev.
  - rewrite (Hprev eq_refl). cbn. rewrite Nat.add_0_r. reflexivity.
  - destruct Hs as [(d & Hd & ->) Hs].
    cbn [scan_digits hex_value].
    assert (Hus : Ascii.eqb (hex_digit d) "_" = false)
      by (each_digit Hd; reflexivity).
    rewrite Hus, (hex_val_hex_digit d Hd).
    rewrite IH by (try exact Hs; reflexivity).
    cbn [default from_option Datatypes.id String.length].
    rewrite Nat.add_succ_r. reflexivity.
Qed.

(** [hex_digits] puts the digits of [n] in front of what it is given. *)
Lemma hex_digits_spec fuel : forall n s0,
  0 <= n < 16 ^ Z.of_nat (S fuel) ->
  exists D,
    hex_digits (S fuel) n s0 = D +:+ s0 /\
    all_hex D /\ D <> "" /\ hex_value D 0 = n.
Proof.
  induction fuel as [|k IH]; intros n s0 Hn;
    cbn [hex_digits];
    assert (Hmod : 0 <= n mod 16 < 16) by (apply Z.mod_pos_bound; lia);
    pose proof (Z.div_mod n 16 ltac:(lia)) as Hdm;
    destruct (n / 16 =? 0) eqn:Hq.
  1,3: apply Z.eqb_eq in Hq;
       exists (String (hex_digit (n mod 16)) "");
       (split; [reflexivity|]); (split; [|split]);
       [ cbn; split; [eauto|exact I]
       | discriminate
       | cbn; rewrite (hex_val_hex_digit _ Hmod); cbn; lia ].
  - apply Z.eqb_neq in Hq. exfalso. apply Hq.
    apply Z.div_small. change (16 ^ Z.of_nat 1) with 16 in Hn. lia.
  - apply Z.eqb_neq in Hq.
    assert (Hdiv : 0 <= n / 16 < 16 ^ Z.of_nat (S k)).
    { split; [apply Z.div_pos; lia|].
      apply Z.div_lt_upper_bound; [lia|].
      rewrite (Nat2Z.inj_succ (S k)), Z.pow_succ_r in Hn by lia. lia. }
    destruct (IH (n / 16) (String (hex_digit (n mod 16)) s0) Hdiv)
      as (D & HD & Hall & Hne & Hval).
    cbn [hex_digits] in HD.
    exists (D +:+ String (hex_digit (n mod 16)) "").
    split; [rewrite HD, append_assoc; reflexivity|].
    split; [|split].
    + apply all_hex_app; [exact Hall|]. cbn. split; [eauto|exact I].
    + destruct D; [congruence|discriminate].
    + rewrite hex_value_app, Hval. cbn.
      rewrite (hex_val_hex_digit _ Hmod). cbn. lia.
Qed.

Lemma hex_upper_spec n :
  0 <= n ->
  all_hex (hex_upper n) /\ hex_upper n <> "" /\ hex_value (hex_upper n) 0 = n.
Proof.
  intros Hn. unfold hex_upper.
  destruct (hex_digits_spec (Z.to_nat (Z.log2 n)) n "")
    as (D & HD & Hall & Hne & Hval).
  - split; [exact Hn|].
    rewrite Nat2Z.inj_succ, Z2Nat.id by apply Z.log2_nonneg.
    destruct (Z.eq_dec n 0) as [->|Hnz]; [cbn; lia|].
    destruct (Z.log2_spec n) as [_ Hlt]; [lia|].
    eapply Z.lt_le_trans; [exact Hlt|].
    apply Z.pow_le_mono_l. lia.
  - rewrite append_nil_r in HD. rewrite HD. auto.
Qed.

(** Evaluate the character tests on the characters that are known. *)
Ltac known_chars :=
  repeat match goal with
    | |- context [hex_digit ?n] =>
        let c := eval vm_compute in (hex_digit n) in
        lazymatch c with Ascii _ _ _ _ _ _ _ _ => change (hex_digit n) with c end
    | |- context [is_space ?c] =>
        let b := eval vm_compute in (is_space c) in
        lazymatch b with
        | true => change (is_space c) with true
        | false => change (is_space c) with false
        end
    | |- context [hex_val ?c] =>
        let v := eval vm_compute in (hex_val c) in
        lazymatch v with
        | Some _ => change (hex_val c) with v
        | None => change (hex_val c) with v
        end
    | |- context [Ascii.eqb ?c ?c'] =>
        let b := eval vm_compute in (Ascii.eqb c c') in
        lazymatch b with
        | true => change (Ascii.eqb c c') with true
        | false => change (Ascii.eqb c c') with false
        end
    end.

Ltac read_digits Hscan :=
  cbv [String.append]; unfold int_base16;
  repeat first [progress known_chars | progress cbn];
  rewrite Hscan;
  repeat first [progress known_chars | progress cbn];
  reflexivity.

(** [int(s, 16)] on a non-empty string of upper-case digits, with or without
    a minus sign in front. *)
Lemma int_base16_digits (H : string) (neg : bool) :
  all_hex H -> H <> "" ->
  int_base16 ((if neg then "-" else "") +:+ H) =
  Some (if neg then - hex_value H 0 else hex_value H 0).
Proof.
  intros Hall Hne.
  destruct H as [|c1 H']; [congruence|]. clear Hne.
  destruct Hall as [(d1 & Hd1 & ->) Hall'].
  destruct (Z.eq_dec d1 0) as [->|Hnz].
  - destruct H' as [|c2 H''].
    + destruct neg; vm_compute; reflexivity.
    + destruct Hall' as [(d2 & Hd2 & ->) Hall''].
      assert (Hscan : forall nd acc,
        scan_digits H'' false nd acc =
        Some (hex_value H'' acc, (nd + String.length H'')%nat, ""))
        by (intros; apply scan_digits_hex; [exact Hall''|reflexivity]).
      each_digit Hd2; destruct neg; read_digits Hscan.
  - assert (Hscan : forall nd acc,
      scan_digits H' false nd acc =
      Some (hex_value H' acc, (nd + String.length H')%nat, ""))
      by (intros; apply scan_digits_hex; [exact Hall'|reflexivity]).
    each_digit Hd1; try congruence; destruct neg; read_digits Hscan.
Qed.

(** X17. Formatting an integer in hexadecimal and reading the text back with
    [int(text, 16)] gives the integer again, whatever the width; so the
    ["id"] text of a frame that was read is accepted by a write and denotes
    the same identifier. *)
Theorem int_base16_format_X (width : nat) (z : Z) :
  int_base16 (format_X width z) = Some z.
Proof.
  unfold format_X.
  destruct (hex_upper_spec (Z.abs z) (Z.abs_nonneg z)) as (Hall & Hne & Hval).
  set (D := hex_upper (Z.abs z)) in *.
  set (k := (width - _)%nat). clearbody k.
  assert (Hall' : all_hex (zeros k +:+ D))
    by (apply all_hex_app; [apply all_hex_zeros|exact Hall]).
  assert (Hne' : zeros k +:+ D <> "").
  { destruct k; [exact Hne|discriminate]. }
  assert (Hval' : hex_value (zeros k +:+ D) 0 = Z.abs z)
    by (rewrite hex_value_app, hex_value_zeros; exact Hval).
  destruct (z <? 0) eqn:Hz.
  - rewrite (int_base16_digits _ true Hall' Hne'), Hval'.
    apply Z.ltb_lt in Hz. f_equal. lia.
  - rewrite (int_base16_digits _ false Hall' Hne'), Hval'.
    apply Z.ltb_ge in Hz. f_equal. lia.
Qed.

End HexText.


(** ** Status and timestamps *)

Section Status.

Context {P : PCANBasic} {U : Unicode}.


End Status.

(** X20. With microseconds below 1000 and milliseconds below 2^32 the classic
    timestamp loses nothing: its quotient by 1000 is the millisecond count
    [millis + 2^32 * millis_overflow] and its remainder is [micros]. *)
Theorem ts_value_decomposes (t : TPCANTimestamp.t) :
  0 <= TPCANTimestamp.micros t < 1000 ->
  0 <= TPCANTimestamp.millis t < 2 ^ 32 ->
  0 <= TPCANTimestamp.millis_overflow t ->
  ts_value (Ts t) / 1000 =
    TPCANTimestamp.millis t + 2 ^ 32 * TPCANTimestamp.millis_overflow t /\
  ts_value (Ts t) mod 1000 = TPCANTimestamp.micros t /\
  (ts_value (Ts t) / 1000) mod 2 ^ 32 = TPCANTimestamp.millis t /\
  (ts_value (Ts t) / 1000) / 2 ^ 32 = TPCANTimestamp.millis_overflow t.
Proof.
  destruct t as [ms ov us]. cbn [ts_value TPCANTimestamp.micros
    TPCANTimestamp.millis TPCANTimestamp.millis_overflow].
  intros Hus Hms Hov.
  change (2 ^ 32) with 4294967296 in *.
  assert (Hq : (us + 1000 * ms + 4294967296 * 1000 * ov) / 1000 =
               ms + 4294967296 * ov).
  { symmetry. apply (Z.div_unique _ 1000 _ us); lia. }
  assert (Hr : (us + 1000 * ms + 4294967296 * 1000 * ov) mod 1000 = us).
  { symmetry. apply (Z.mod_unique _ 1000 (ms + 4294967296 * ov) us); lia. }
  rewrite Hq, Hr. repeat split.
  - symmetry. apply (Z.mod_unique _ 4294967296 ov ms); lia.
  - symmetry. apply (Z.div_unique _ 4294967296 _ ms); lia.
Qed.


Lemma ts_value_decomposes_witness :
  ts_value (Ts frame_stamp) / 1000 = 5 + 2 ^ 32 * 1 /\
  ts_value (Ts frame_stamp) mod 1000 = 7 /\
  (ts_value (Ts frame_stamp) / 1000) mod 2 ^ 32 = 5 /\
  (ts_value (Ts frame_stamp) / 1000) / 2 ^ 32 = 1.
Proof.
  apply (ts_value_decomposes frame_stamp); simpl; lia.
Defined.

(** ** The fields of a reading *)

Section Reading_fields.

Import PyFloat.

(** Two bytes put together with a shift and an or make [256 * hi + lo]. *)
Lemma lor_shiftl_bytes hi lo :
  is_byte hi -> is_byte lo -> Z.lor (Z.shiftl hi 8) lo = 256 * hi + lo.
Proof.
  unfold is_byte. intros Hhi Hlo.
  assert (Hs : Z.shiftl hi 8 = 256 * hi)
    by (rewrite Z.shiftl_mul_pow2 by lia; change (2 ^ 8) with 256; lia).
  assert (Hland : Z.land (Z.shiftl hi 8) lo = 0).
  { apply Z.bits_inj'. intros n Hn.
    rewrite Z.land_spec, Z.bits_0.
    destruct (Z.lt_ge_cases n 8) as [Hlt|Hge].
    - rewrite Z.shiftl_spec_low by exact Hlt. reflexivity.
    - destruct (Z.eq_dec lo 0) as [->|Hnz].
      + rewrite Z.bits_0. apply andb_false_r.
      + rewrite (Z.bits_above_log2 lo n); [apply andb_false_r|lia|].
        apply Z.lt_le_trans with 8; [|exact Hge].
        apply Z.log2_lt_pow2; [lia|]. change (2 ^ 8) with 256. lia. }
  pose proof (Z.add_lor_land (Z.shiftl hi 8) lo) as Hadd.
  rewrite Hland, Hs in Hadd. rewrite Hs. lia.
Qed.

(** X18. What a payload of bytes decodes to, field by field: the sensor id and
    the packet type are bytes 0 and 1; the pressure is the big-endian pair
    of bytes 2 and 3; the temperature reads as the little-endian pair of
    bytes 4 and 5 minus 8500, in hundredths, between -85.00 and 570.35;
    the battery value reads as byte 6 plus 200, in hundredths, between 2.00
    and 4.55. *)
Theorem reading_fields (b0 b1 b2 b3 b4 b5 b6 : Z) (rest : list Z) :
  Forall is_byte [b0; b1; b2; b3; b4; b5; b6] ->
  exists r,
    parse_sensor_data (b0 :: b1 :: b2 :: b3 :: b4 :: b5 :: b6 :: rest) = Some r /\
    sensor_id r = b0 /\
    packet_type r = b1 /\
    pressure r = 256 * b2 + b3 /\ 0 <= pressure r <= 65535 /\
    (exists k, hundredths (temperature r) = Some k /\
               k = 256 * b5 + b4 - 8500 /\ -8500 <= k <= 57035) /\
    (exists k, hundredths (battery_watts r) = Some k /\
               k = b6 + 200 /\ 200 <= k <= 455).
Proof.
  intros Hb.
  assert (H2 : is_byte b2) by exact (proj1 (Forall_lookup _ _) Hb 2%nat b2 eq_refl).
  assert (H3 : is_byte b3) by exact (proj1 (Forall_lookup _ _) Hb 3%nat b3 eq_refl).
  assert (H4 : is_byte b4) by exact (proj1 (Forall_lookup _ _) Hb 4%nat b4 eq_refl).
  assert (H5 : is_byte b5) by exact (proj1 (Forall_lookup _ _) Hb 5%nat b5 eq_refl).
  assert (H6 : is_byte b6) by exact (proj1 (Forall_lookup _ _) Hb 6%nat b6 eq_refl).
  destruct (parse_sensor_data_bytes b0 b1 b2 b3 b4 b5 b6 rest H4 H5 H6)
    as (t & w & Ht & Hw & Hr).
  destruct (temperature_of_bytes b5 b4 H5 H4) as (t' & Ht' & _ & Hht & _).
  destruct (battery_of_byte b6 H6) as (w' & Hw' & _ & Hhw).
  assert (t' = t) as -> by congruence.
  assert (w' = w) as -> by congruence.
  rewrite (lor_shiftl_bytes b5 b4 H5 H4) in Hht.
  eexists. split; [exact Hr|]. cbn.
  rewrite (lor_shiftl_bytes b2 b3 H2 H3).
  unfold is_byte in *.
  repeat split; try lia.
  - exists (256 * b5 + b4 - 8500). repeat split; [exact Hht|lia|lia].
  - exists (b6 + 200). repeat split; [exact Hhw|lia|lia].
Qed.

End Reading_fields.

Lemma reading_fields_witness :
  exists r,
    parse_sensor_data [3; 1; 1; 0; 0x34; 0x21; 255; 0] = Some r /\
    sensor_id r = 3 /\
    packet_type r = 1 /\
    pressure r = 256 * 1 + 0 /\ 0 <= pressure r <= 65535 /\
    (exists k, PyFloat.hundredths (temperature r) = Some k /\
               k = 256 * 0x21 + 0x34 - 8500 /\ -8500 <= k <= 57035) /\
    (exists k, PyFloat.hundredths (battery_watts r) = Some k /\
               k = 255 + 200 /\ 200 <= k <= 455).
Proof.
  apply (reading_fields 3 1 1 0 0x34 0x21 255 [0]).
  repeat constructor; unfold is_byte; lia.
Defined.

Lemma release_can_twice_witness :
  (route release_can (start_world ready_device)).1 =
  Json 200 [("success", JBool true); ("message", JStr "Channel released.")] /\
  route release_can (route release_can (start_world ready_device)).2 =
  (Json 200 [("success", JBool true); ("message", JStr "Channel released.")],
   mkWorld (P := scripted)
     (set_pcan_initialized false (globals (start_world ready_device)))
     ready_device [CUninitialize 0x51; CUninitialize 0x51]).
Proof.
  apply (release_can_twice (start_world ready_device) 0x51
           ready_device ready_device); reflexivity.
Defined.


Lemma write_message_non_integer_item_witness :
  route (write_message no_exc_str
           (Some {[ "id" := JS (SStr "100");
                    "data" := JArr [SNum 1; SStr "x"] ]}))
        (start_world ready_device) =
  (Json 400 [("success", JBool false);
             ("error", JStr ("Invalid request format: " +:+ no_exc_str TypeError))],
   start_world ready_device).
Proof.
  refine (write_message_non_integer_item no_exc_str (start_world ready_device)
            {[ "id" := JS (SStr "100"); "data" := JArr [SNum 1; SStr "x"] ]}
            "100" 0x100 [1] (SStr "x") [] _ _ _ _ _ _);
    try (vm_compute; reflexivity); simpl; lia.
Defined.
